(** * Active Appearance Models: the orchestration layer of [aam/base.py]

    A shallow embedding of the five AAM classes of [aam/base.py]: level
    selection, the scaling of weight vectors by the square roots of the
    eigenvalues, the composition of an instance in a reference frame and
    the adapter that prepares an object for HDF5 serialisation.

    The geometry and vision framework (PCA models, transforms, warping,
    reference frames) is external to the file; its operations are
    parameters of the development, and every call to one of them is
    recorded in a log. *)

From Stdlib Require Import ZArith List String Lia.
From stdpp Require Import base option list gmap strings.

Local Open Scope string_scope.
Local Open Scope list_scope.
Local Open Scope Z_scope.
Set Warnings "-register-all".

(** ** Scalars

    The entries of weight vectors and eigenvalue arrays are float64
    numbers.  Only three operations on them occur in the source: the
    literal [0], the product, and [x ** 0.5]. *)

Class Scalar (F : Type) := {
  fzero : F;
  fmul : F -> F -> F;
  fsqrt : F -> F
}.

(** ** Python exceptions

    [ExternalError] is for errors of the framework's own.  [SystemError]
    marks a run that reads an array address at which the store has no
    array, which no run of the Python program does. *)

Inductive exn :=
| IndexError
| KeyError (key : string)
| ValueError (msg : string)
| TypeError (msg : string)
| AttributeError (attr : string)
| SystemError
| ExternalError (msg : string).

(** A callable (a transform constructor or a feature function) is known by
    its qualified name; a module is known by its name. *)
Definition Callable := string.
Definition ThinPlateSplines : Callable :=
  "menpo.transform.thinplatesplines.ThinPlateSplines".

(** ** Python sequences *)

(** [l[i]] on a Python list: a negative index counts from the end, an index
    out of range raises [IndexError]. *)
Definition getitem {A} (l : list A) (i : Z) : exn + A :=
  let n := Z.of_nat (length l) in
  let j := if i <? 0 then i + n else i in
  if (j <? 0) || (n <=? j) then inl IndexError
  else match l !! Z.to_nat j with
       | Some x => inr x
       | None => inl IndexError
       end.

(** ** numpy arrays of one dimension *)

Section Numpy.
Context {F : Type} `{Scalar F}.

(** [a ** 0.5] *)
Definition power_half (a : list F) : list F := map fsqrt a.

(** [np.multiply(a, b)], which is what [a * b] is, and also what
    [a *= b] is when [a] is a Python list: a list has no in-place
    product with an array, so the array's reflected product builds a
    new array.  Shapes [(n,)] and [(m,)] broadcast when [n = m] or one
    of them is 1. *)
Definition multiply (a b : list F) : exn + list F :=
  if decide (length a = length b) then inr (zip_with fmul a b)
  else match a, b with
       | [x], _ => inr (map (fmul x) b)
       | _, [y] => inr (map (fun x => fmul x y) a)
       | _, _ => inl (ValueError "operands could not be broadcast together")
       end.

(** [a *= b] on a float64 array [a]: the product is written into [a],
    so [b] has to broadcast to the shape of [a]. *)
Definition imultiply (a b : list F) : exn + list F :=
  if decide (length a = length b) then inr (zip_with fmul a b)
  else match b with
       | [y] => inr (map (fun x => fmul x y) a)
       | _ => inl (ValueError "non-broadcastable output operand")
       end.
End Numpy.

(** ** Data model *)

Definition Trilist := list (nat * nat * nat).
Definition PatchShape := (Z * Z)%type.

Section Model.
Context {F : Type} `{Scalar F}.
(** Transform objects are opaque: they are built and consumed by the
    framework only. *)
Context {Transform : Type}.

(** Landmark geometry.  [ColouredTriMesh] is a subclass of [TriMesh]:
    an object of that class is a mesh, but its type is not [TriMesh]. *)
Inductive Shape :=
| PointCloud (points : list (F * F))
| TriMesh (points : list (F * F)) (trilist : Trilist)
| ColouredTriMesh (points : list (F * F)) (trilist : Trilist)
                  (colours : list F).

(** An image with its mask and its landmark manager, which maps a group
    label to the landmarks of the group. *)
Record Image := {
  pixels : list F;
  mask : list bool;
  landmarks : gmap string Shape
}.

(** [image.landmarks = lms] *)
Definition set_landmarks (image : Image) (lms : gmap string Shape) : Image :=
  {| pixels := pixels image; mask := mask image; landmarks := lms |}.

(** A PCA model of the framework, as far as this file uses it. *)
Record PCAModel (X : Type) := {
  eigenvalues : list F;
  n_active_components : nat;
  pca_instance : list F -> exn + X;
  mean : X
}.
Arguments eigenvalues {X} _.
Arguments n_active_components {X} _.
Arguments pca_instance {X} _ _.
Arguments mean {X} _.

(** Python values, for the attribute dictionary of an object. *)
Inductive value :=
| VNone
| VBool (b : bool)
| VInt (n : Z)
| VFloat (x : F)
| VList (l : list value)
| VTuple (l : list value)
| VCallable (c : Callable)
| VShape (s : Shape)
| VShapeModel (m : PCAModel Shape)
| VAppearanceModel (m : PCAModel Image)
| SerializableCallable (c : value) (modules : list string).

(** The five classes, each with the attributes that only it has.  The
    two patch classes set [self.transform = ThinPlateSplines]
    themselves; [PartsAAM] has no [transform] at all. *)
Inductive aam_class :=
| GlobalAAM (transform : Callable)
| PatchAAM (patch_shape : PatchShape)
| LinearGlobalAAM (transform : Callable) (n_landmarks : Z)
| LinearPatchAAM (patch_shape : PatchShape) (n_landmarks : Z)
| PartsAAM (parts_shape : PatchShape).

Record AAM := {
  cls : aam_class;
  shape_models : list (PCAModel Shape);
  appearance_models : list (PCAModel Image);
  reference_shape : Shape;
  features : value;
  sigma : value;
  scales : list F;
  scale_shapes : bool;
  scale_features : bool
}.

(** [self.transform], where the class has it. *)
Definition transform_of (self : AAM) : option Callable :=
  match cls self with
  | GlobalAAM t | LinearGlobalAAM t _ => Some t
  | PatchAAM _ | LinearPatchAAM _ _ => Some ThinPlateSplines
  | PartsAAM _ => None
  end.

(** [n_levels]: [len(self.scales)]. *)
Definition n_levels (self : AAM) : nat := length (scales self).

(** *** The state of a run

    A weight vector given by the caller is a Python list, which this
    code never writes to, or a numpy array.  A float64 array lives in a
    store and can be written in place.  An array of integers is given
    with its entries: this code reads its length and never gets to
    write to it.  The process-wide random source is a sequence of draws
    with a cursor.  The log lists the calls made to the framework, in
    order. *)

Inductive weights :=
| PyList (l : list F)
| NdArray (a : nat)
| IntNdArray (l : list Z).

Inductive event :=
| CallShapeInstance (w : list F)
| CallAppearanceInstance (w : list F)
| CallBuildReferenceFrame (s : Shape) (trilist : option Trilist)
| CallBuildPatchReferenceFrame (s : Shape) (patch_shape : PatchShape)
| CallTransform (c : Callable) (a b : Shape)
| CallWarpToMask (image : Image) (m : list bool) (t : Transform).

Record world := World {
  heap : gmap nat (list F);
  draws : nat -> F;
  cursor : nat;
  log : list event
}.

Definition M (A : Type) : Type := world -> (exn + A) * world.

Definition ret {A} (a : A) : M A := fun w => (inr a, w).
Definition raise {A} (e : exn) : M A := fun w => (inl e, w).
Definition lift {A} (r : exn + A) : M A := fun w => (r, w).
Definition bind {A B} (m : M A) (k : A -> M B) : M B :=
  fun w => match m w with
           | (inr a, w') => k a w'
           | (inl e, w') => (inl e, w')
           end.

Notation "x <- m ;; k" := (bind m (fun x => k))
  (at level 100, m at next level, right associativity).
Notation "m ;;; k" := (bind m (fun _ => k))
  (at level 100, right associativity).

Definition emit (ev : event) : M unit :=
  fun w => (inr tt, World (heap w) (draws w) (cursor w) (log w ++ [ev])).

Definition deref (a : nat) : M (list F) :=
  fun w => match heap w !! a with
           | Some l => (inr l, w)
           | None => (inl SystemError, w)
           end.

Definition store (a : nat) (l : list F) : M unit :=
  fun w => (inr tt, World (<[a := l]> (heap w)) (draws w) (cursor w) (log w)).

(** [np.random.randn(n)]: the next [n] draws of the random source. *)
Definition randn (n : nat) : M (list F) :=
  fun w => (inr (map (draws w) (seq (cursor w) n)),
            World (heap w) (draws w) (cursor w + n)%nat (log w)).

(** [len(w)] *)
Definition len (w : weights) : M nat :=
  match w with
  | PyList l => ret (length l)
  | NdArray a => l <- deref a ;; ret (length l)
  | IntNdArray l => ret (length l)
  end.

(** The error of a product of type float64 that is to be written into
    an array of integers.  numpy, from version 1.10 on, refuses the
    cast when it chooses the types, before it looks at the shapes, and
    writes nothing. *)
Definition casting_error : exn :=
  TypeError "Cannot cast ufunc 'multiply' output from dtype('float64') to dtype('int64') with casting rule 'same_kind'".

(** [w *= rhs], with [rhs] a fresh float64 array.  The result is the
    content of the array that the name is bound to afterwards: a new
    array when [w] is a list, the caller's own array, overwritten, when
    [w] is a float64 array.  When [w] is an array of integers the
    product may not be written into it. *)
Definition imul (w : weights) (rhs : list F) : M (list F) :=
  match w with
  | PyList l => lift (multiply l rhs)
  | NdArray a =>
      l <- deref a ;;
      r <- lift (imultiply l rhs) ;;
      store a r ;;;
      ret r
  | IntNdArray _ => raise casting_error
  end.

(** *** The framework

    [call_transform c a b] is the call [c(a, b)] of a transform
    constructor, [warp_to_mask image m t] is [image.warp_to_mask(m, t)].
    [build_reference_frame] and [build_patch_reference_frame] are the
    two functions imported from [aam/utils.py]. *)
Record Framework := {
  call_transform : Callable -> Shape -> Shape -> exn + Transform;
  warp_to_mask : Image -> list bool -> Transform -> exn + Image;
  build_reference_frame : Shape -> option Trilist -> exn + Image;
  build_patch_reference_frame : Shape -> PatchShape -> exn + Image
}.

Context (fw : Framework).

(** [image.landmarks['source'].lms] *)
Definition source_lms (image : Image) : M Shape :=
  match landmarks image !! "source" with
  | Some s => ret s
  | None => raise (KeyError "source")
  end.

(** [self.transform] *)
Definition getattr_transform (self : AAM) : M Callable :=
  match transform_of self with
  | Some t => ret t
  | None => raise (AttributeError "transform")
  end.

(** [self.patch_shape] *)
Definition getattr_patch_shape (self : AAM) : M PatchShape :=
  match cls self with
  | PatchAAM ps | LinearPatchAAM ps _ => ret ps
  | _ => raise (AttributeError "patch_shape")
  end.

(** ** GlobalAAM and PatchAAM *)

Definition GlobalAAM__build_reference_frame
    (self : AAM) (reference_shape landmarks : Shape) : M Image :=
  let trilist :=
    match landmarks with
    | TriMesh _ trilist => Some trilist
    | _ => None
    end in
  emit (CallBuildReferenceFrame reference_shape trilist) ;;;
  lift (build_reference_frame fw reference_shape trilist).

Definition PatchAAM__build_reference_frame
    (self : AAM) (reference_shape _landmarks : Shape) : M Image :=
  patch_shape <- getattr_patch_shape self ;;
  emit (CallBuildPatchReferenceFrame reference_shape patch_shape) ;;;
  lift (build_patch_reference_frame fw reference_shape patch_shape).

(** [self._build_reference_frame(...)]: method lookup by class. *)
Definition _build_reference_frame
    (self : AAM) (reference_shape landmarks : Shape) : M Image :=
  match cls self with
  | GlobalAAM _ =>
      GlobalAAM__build_reference_frame self reference_shape landmarks
  | PatchAAM _ =>
      PatchAAM__build_reference_frame self reference_shape landmarks
  | LinearGlobalAAM _ _ | LinearPatchAAM _ _ | PartsAAM _ =>
      raise (AttributeError "_build_reference_frame")
  end.

Definition GlobalAAM__instance (self : AAM) (level : Z)
    (shape_instance : Shape) (appearance_instance : Image) : M Image :=
  am <- lift (getitem (appearance_models self) level) ;;
  let template := mean am in
  lms <- source_lms template ;;
  reference_frame <-
    _build_reference_frame self shape_instance lms ;;
  transform <- getattr_transform self ;;
  frame_lms <- source_lms reference_frame ;;
  emit (CallTransform transform frame_lms lms) ;;;
  transform <- lift (call_transform fw transform frame_lms lms) ;;
  emit (CallWarpToMask appearance_instance (mask reference_frame) transform) ;;;
  instance <- lift (warp_to_mask fw appearance_instance
                                 (mask reference_frame) transform) ;;
  ret (set_landmarks instance (landmarks reference_frame)).

Definition PatchAAM__instance (self : AAM) (level : Z)
    (shape_instance : Shape) (appearance_instance : Image) : M Image :=
  am <- lift (getitem (appearance_models self) level) ;;
  let template := mean am in
  lms <- source_lms template ;;
  reference_frame <-
    _build_reference_frame self shape_instance lms ;;
  transform <- getattr_transform self ;;
  frame_lms <- source_lms reference_frame ;;
  emit (CallTransform transform frame_lms lms) ;;;
  transform <- lift (call_transform fw transform frame_lms lms) ;;
  emit (CallWarpToMask appearance_instance (mask reference_frame) transform) ;;;
  instance <- lift (warp_to_mask fw appearance_instance
                                 (mask reference_frame) transform) ;;
  ret (set_landmarks instance (landmarks reference_frame)).

(** ** AAM, the shared base class *)

(** [self._instance(...)]: method lookup by class.  Only [GlobalAAM] and
    [PatchAAM] define the method; the base class does not. *)
Definition _instance (self : AAM) (level : Z)
    (shape_instance : Shape) (appearance_instance : Image) : M Image :=
  match cls self with
  | GlobalAAM _ =>
      GlobalAAM__instance self level shape_instance appearance_instance
  | PatchAAM _ =>
      PatchAAM__instance self level shape_instance appearance_instance
  | LinearGlobalAAM _ _ | LinearPatchAAM _ _ | PartsAAM _ =>
      raise (AttributeError "_instance")
  end.

(** [sm.instance(w)] and [am.instance(w)] *)
Definition call_shape_instance (sm : PCAModel Shape) (w : list F) : M Shape :=
  emit (CallShapeInstance w) ;;; lift (pca_instance sm w).
Definition call_appearance_instance (am : PCAModel Image) (w : list F)
  : M Image :=
  emit (CallAppearanceInstance w) ;;; lift (pca_instance am w).

Definition instance (self : AAM)
    (shape_weights appearance_weights : option weights) (level : Z)
  : M Image :=
  sm <- lift (getitem (shape_models self) level) ;;
  am <- lift (getitem (appearance_models self) level) ;;
  let shape_weights :=
    match shape_weights with
    | None => PyList [fzero]
    | Some w => w
    end in
  let appearance_weights :=
    match appearance_weights with
    | None => PyList [fzero]
    | Some w => w
    end in
  n_shape_weights <- len shape_weights ;;
  shape_weights <-
    imul shape_weights (power_half (take n_shape_weights (eigenvalues sm))) ;;
  shape_instance <- call_shape_instance sm shape_weights ;;
  n_appearance_weights <- len appearance_weights ;;
  appearance_weights <-
    imul appearance_weights
         (power_half (take n_appearance_weights (eigenvalues am))) ;;
  appearance_instance <- call_appearance_instance am appearance_weights ;;
  _instance self level shape_instance appearance_instance.

Definition random_instance (self : AAM) (level : Z) : M Image :=
  sm <- lift (getitem (shape_models self) level) ;;
  am <- lift (getitem (appearance_models self) level) ;;
  draw <- randn (n_active_components sm) ;;
  shape_weights <-
    lift (multiply draw
            (power_half (take (n_active_components sm) (eigenvalues sm)))) ;;
  shape_instance <- call_shape_instance sm shape_weights ;;
  draw <- randn (n_active_components am) ;;
  appearance_weights <-
    lift (multiply draw
            (power_half (take (n_active_components am) (eigenvalues am)))) ;;
  appearance_instance <- call_appearance_instance am appearance_weights ;;
  _instance self level shape_instance appearance_instance.

(** *** The serialisation adapter *)

(** [self.__dict__], as the constructors fill it. *)
Definition class_dict (c : aam_class) : gmap string value :=
  match c with
  | GlobalAAM t => {[ "transform" := VCallable t ]}
  | PatchAAM ps =>
      <[ "transform" := VCallable ThinPlateSplines ]>
        {[ "patch_shape" := VTuple [VInt ps.1; VInt ps.2] ]}
  | LinearGlobalAAM t n =>
      <[ "transform" := VCallable t ]> {[ "n_landmarks" := VInt n ]}
  | LinearPatchAAM ps n =>
      <[ "transform" := VCallable ThinPlateSplines ]>
        (<[ "patch_shape" := VTuple [VInt ps.1; VInt ps.2] ]>
           {[ "n_landmarks" := VInt n ]})
  | PartsAAM ps => {[ "parts_shape" := VTuple [VInt ps.1; VInt ps.2] ]}
  end.

Definition __dict__ (self : AAM) : gmap string value :=
  <[ "shape_models" := VList (map VShapeModel (shape_models self)) ]>
  (<[ "appearance_models" :=
        VList (map VAppearanceModel (appearance_models self)) ]>
  (<[ "reference_shape" := VShape (reference_shape self) ]>
  (<[ "features" := features self ]>
  (<[ "sigma" := sigma self ]>
  (<[ "scales" := VList (map VFloat (scales self)) ]>
  (<[ "scale_shapes" := VBool (scale_shapes self) ]>
  (<[ "scale_features" := VBool (scale_features self) ]>
     (class_dict (cls self))))))))).

(** [d.pop(k)] *)
Definition pop (k : string) (d : gmap string value)
  : exn + (value * gmap string value) :=
  match d !! k with
  | Some v => inr (v, delete k d)
  | None => inl (KeyError k)
  end.

(** [for f in v] *)
Definition iterate (v : value) : exn + list value :=
  match v with
  | VList l | VTuple l => inr l
  | _ => inl (TypeError "object is not iterable")
  end.

Definition AAM_h5_dict_to_serializable_dict (self : AAM)
  : exn + gmap string value :=
  let d := __dict__ self in
  match pop "transform" d with
  | inl e => inl e
  | inr (transform, d) =>
  let d :=
    <[ "transform" := SerializableCallable transform ["menpo.transform"] ]> d in
  match pop "features" d with
  | inl e => inl e
  | inr (features, d) =>
  if scale_features self then
    inr (<[ "features" := SerializableCallable features ["aam.feature"] ]> d)
  else
    match iterate features with
    | inl e => inl e
    | inr fs =>
        inr (<[ "features" :=
                  VList (map (fun f => SerializableCallable f ["aam.feature"])
                             fs) ]> d)
    end
  end
  end.

Definition PartsAAM_h5_dict_to_serializable_dict (self : AAM)
  : exn + gmap string value :=
  let d := __dict__ self in
  match pop "features" d with
  | inl e => inl e
  | inr (features, d) =>
  if scale_features self then
    inr (<[ "features" := SerializableCallable features ["aam.feature"] ]> d)
  else
    match iterate features with
    | inl e => inl e
    | inr fs =>
        inr (<[ "features" :=
                  VList (map (fun f => SerializableCallable f ["aam.feature"])
                             fs) ]> d)
    end
  end.

(** [self.h5_dict_to_serializable_dict()]: [PartsAAM] overrides the
    method of the base class. *)
Definition h5_dict_to_serializable_dict (self : AAM)
  : exn + gmap string value :=
  match cls self with
  | PartsAAM _ => PartsAAM_h5_dict_to_serializable_dict self
  | _ => AAM_h5_dict_to_serializable_dict self
  end.

End Model.

Arguments eigenvalues {F X} _.
Arguments n_active_components {F X} _.
Arguments pca_instance {F X} _ _.
Arguments mean {F X} _.
Arguments Build_PCAModel {F X} _ _ _ _.

(** ** A small instance of the framework

    Scalars are integers, with the integer square root: exact on the
    perfect squares that the examples use.  A transform remembers how it
    was built; a reference frame carries the shape it was built from as
    its own ['source'] landmarks. *)

#[export] Instance Z_Scalar : Scalar Z :=
  {| fzero := 0; fmul := Z.mul; fsqrt := Z.sqrt |}.

Definition ToyTransform : Type := (Callable * @Shape Z * @Shape Z)%type.

Definition toy_framework : @Framework Z ToyTransform :=
  {| call_transform c a b := inr (c, a, b);
     warp_to_mask image m t :=
       inr {| pixels := pixels image; mask := m;
              landmarks := landmarks image |};
     build_reference_frame s trilist :=
       inr {| pixels := []; mask := [true];
              landmarks := {[ "source" := s ]} |};
     build_patch_reference_frame s ps :=
       inr {| pixels := []; mask := [true; true];
              landmarks := {[ "source" := s ]} |} |}.

Definition toy_mesh : @Shape Z :=
  TriMesh [(0, 0); (1, 0); (0, 1)] [(0, 1, 2)%nat].

Definition toy_template : @Image Z :=
  {| pixels := [5]; mask := [true];
     landmarks := {[ "source" := toy_mesh ]} |}.

Definition toy_shape_model (eig : list Z) : PCAModel (@Shape Z) :=
  {| eigenvalues := eig;
     n_active_components := length eig;
     pca_instance w := inr (PointCloud (map (fun x => (x, x)) w));
     mean := PointCloud [] |}.

Definition toy_appearance_model (eig : list Z) : PCAModel (@Image Z) :=
  {| eigenvalues := eig;
     n_active_components := length eig;
     pca_instance w :=
       inr {| pixels := w; mask := [true];
              landmarks := {[ "source" := PointCloud [(7, 7)] ]} |};
     mean := toy_template |}.

(** A one-level model with the given eigenvalues. *)
Definition toy_aam (c : aam_class) (shape_eig appearance_eig : list Z)
  : @AAM Z :=
  {| cls := c;
     shape_models := [toy_shape_model shape_eig];
     appearance_models := [toy_appearance_model appearance_eig];
     reference_shape := toy_mesh;
     features := VCallable "aam.feature.igo";
     sigma := VNone;
     scales := [1];
     scale_shapes := true;
     scale_features := true |}.

(** The same model with one feature function per level: the
    scale-features flag is not set and [features] is a list. *)
Definition toy_aam_level_features (c : aam_class) : @AAM Z :=
  {| cls := c;
     shape_models := [toy_shape_model [4]; toy_shape_model [4; 9]];
     appearance_models :=
       [toy_appearance_model [9]; toy_appearance_model [9; 16]];
     reference_shape := toy_mesh;
     features :=
       VList [VCallable "aam.feature.igo"; VCallable "aam.feature.hog"];
     sigma := VNone;
     scales := [2; 1];
     scale_shapes := true;
     scale_features := false |}.

Definition toy_global_aam : @AAM Z :=
  toy_aam (GlobalAAM ThinPlateSplines) [4] [9].

Definition toy_linear_aam : @AAM Z :=
  toy_aam (LinearGlobalAAM ThinPlateSplines 68) [4] [9].

(** A shape instance, an appearance instance with landmarks of its own,
    and the reference frame that the toy framework builds from the shape
    instance. *)
Definition toy_shape_instance : @Shape Z := PointCloud [(2, 2)].

Definition toy_appearance_instance : @Image Z :=
  {| pixels := [3]; mask := [true];
     landmarks := {[ "source" := PointCloud [(7, 7)] ]} |}.

Definition toy_frame : @Image Z :=
  {| pixels := []; mask := [true];
     landmarks := {[ "source" := toy_shape_instance ]} |}.

(** A world with the given arrays, an empty log and the draws 1, 2, 3... *)
Definition toy_world (h : gmap nat (list Z)) : @world Z ToyTransform :=
  World h (fun i => Z.of_nat i + 1) 0%nat [].

(** ** What a computation may do to the world

    [triple R m P]: from every world, [m] ends in a world related to it
    by [R], and a returned value satisfies [P]. *)

Definition triple {F Transform A} (R : relation (@world F Transform))
    (m : M A) (P : A -> Prop) : Prop :=
  forall w, R w (m w).2 /\ forall a, (m w).1 = inr a -> P a.

(** The events appended to the log all satisfy [Q]. *)
Definition log_grows {F Transform} (Q : @event F Transform -> Prop)
  : relation (@world F Transform) :=
  fun w w' => exists evs, log w' = log w ++ evs /\ Forall Q evs.

(** No array of the store is written or created. *)
Definition same_heap {F Transform} : relation (@world F Transform) :=
  fun w w' => heap w' = heap w.

(** The vectors handed to the PCA models have at most one entry. *)
Definition at_most_one_weight {F Transform} (ev : @event F Transform) : Prop :=
  match ev with
  | CallShapeInstance v | CallAppearanceInstance v => (length v <= 1)%nat
  | _ => True
  end.

(** The vector of floats that a caller's argument holds in a given world:
    the numbers of a list, or the content of a float64 array.  An array
    of integers holds none. *)
Definition weights_content {F Transform} (w : @world F Transform)
    (ws : @weights F) : option (list F) :=
  match ws with
  | PyList l => Some l
  | NdArray a => heap w !! a
  | IntNdArray _ => None
  end.

(** The world [w] with the events [evs] appended to its log. *)
Definition logged {F Transform} (w : @world F Transform)
    (evs : list (@event F Transform)) : world :=
  World (heap w) (draws w) (cursor w) (log w ++ evs).

(** The log may grow by any events. *)
Definition any_event {F Transform} (ev : @event F Transform) : Prop := True.

(** The [n] draws that follow the first [skip] draws still to come. *)
Definition next_draws {F Transform} (w : @world F Transform)
    (skip n : nat) : list F :=
  map (draws w) (seq (cursor w + skip) n).

(** Entry [i] is [ws_i * sqrt(eig_i)]. *)
Definition scaled {F} `{Scalar F} (ws eig : list F) : list F :=
  zip_with fmul ws (power_half eig).

(** [m] leaves the log as it is, up to new events at its end. *)
Definition appends {F Transform A} (m : @M F Transform A) : Prop :=
  triple (log_grows any_event) m (fun _ => True).

(** More of the small instance: PCA models that refuse more weights than
    they have eigenvalues, a template without landmarks, a framework
    whose reference frames carry no landmarks, and models built from
    given lists of PCA models. *)

Definition strict_shape_model (eig : list Z) : PCAModel (@Shape Z) :=
  {| eigenvalues := eig;
     n_active_components := length eig;
     pca_instance w :=
       if decide (length w <= length eig)%nat
       then inr (PointCloud (map (fun x => (x, x)) w))
       else inl (ValueError "Number of weights cannot be greater");
     mean := PointCloud [] |}.

Definition strict_appearance_model (eig : list Z) : PCAModel (@Image Z) :=
  {| eigenvalues := eig;
     n_active_components := length eig;
     pca_instance w :=
       if decide (length w <= length eig)%nat
       then inr {| pixels := w; mask := [true];
                   landmarks := {[ "source" := PointCloud [(7, 7)] ]} |}
       else inl (ValueError "Number of weights cannot be greater");
     mean := toy_template |}.

Definition bare_appearance_model (eig : list Z) : PCAModel (@Image Z) :=
  {| eigenvalues := eig;
     n_active_components := length eig;
     pca_instance w := inr {| pixels := w; mask := [true]; landmarks := ∅ |};
     mean := {| pixels := [5]; mask := [true]; landmarks := ∅ |} |}.

Definition bare_framework : @Framework Z ToyTransform :=
  {| call_transform c a b := inr (c, a, b);
     warp_to_mask image m t :=
       inr {| pixels := pixels image; mask := m;
              landmarks := landmarks image |};
     build_reference_frame s trilist :=
       inr {| pixels := []; mask := [true]; landmarks := ∅ |};
     build_patch_reference_frame s ps :=
       inr {| pixels := []; mask := [true; true]; landmarks := ∅ |} |}.

Definition toy_aam_of (c : aam_class)
    (sms : list (PCAModel (@Shape Z))) (ams : list (PCAModel (@Image Z)))
  : @AAM Z :=
  {| cls := c;
     shape_models := sms;
     appearance_models := ams;
     reference_shape := toy_mesh;
     features := VCallable "aam.feature.igo";
     sigma := VNone;
     scales := [1];
     scale_shapes := true;
     scale_features := false |}.

(** The random source is where it was: same draws, same cursor. *)
Definition same_random_source {F Transform}
  : relation (@world F Transform) :=
  fun w w' => draws w' = draws w /\ cursor w' = cursor w.

(** [level] is no index of a list of [n] elements. *)
Definition out_of_range (n : nat) (level : Z) : Prop :=
  level < - Z.of_nat n \/ Z.of_nat n <= level.

(** The calls that a [PatchAAM] with the given patch shape may make: no
    call of [build_reference_frame], patch frames of its own patch
    shape, transforms built by [ThinPlateSplines]. *)
Definition patch_run_event {F Transform} (patch_shape : PatchShape)
    (ev : @event F Transform) : Prop :=
  match ev with
  | CallBuildReferenceFrame _ _ => False
  | CallBuildPatchReferenceFrame _ ps => ps = patch_shape
  | CallTransform c _ _ => c = ThinPlateSplines
  | _ => True
  end.

(** The calls that a [GlobalAAM] with the given transform may make: no
    call of [build_patch_reference_frame], transforms built by its own
    transform. *)
Definition global_run_event {F Transform} (transform : Callable)
    (ev : @event F Transform) : Prop :=
  match ev with
  | CallBuildPatchReferenceFrame _ _ => False
  | CallTransform c _ _ => c = transform
  | _ => True
  end.

(** * Properties *)

Section Monad.
Context {F : Type} `{Scalar F} {Transform : Type}.
Lemma bind_ret {A B} (a : A) (k : A -> @M F Transform B) w :
  bind (ret a) k w = k a w.
Proof. reflexivity. Qed.

Lemma bind_ok {A B} (m : @M F Transform A) (k : A -> M B) w a w1 :
  m w = (inr a, w1) -> bind m k w = k a w1.
Proof. intros Hm. unfold bind. now rewrite Hm. Qed.

Lemma bind_fail {A B} (m : @M F Transform A) (k : A -> M B) w e w1 :
  m w = (inl e, w1) -> bind m k w = (inl e, w1).
Proof. intros Hm. unfold bind. now rewrite Hm. Qed.

Lemma lift_ok {A} (r : exn + A) (a : A) (w : @world F Transform) :
  r = inr a -> lift r w = (inr a, w).
Proof. now intros ->. Qed.

Lemma lift_fail {A} (r : exn + A) (e : exn) (w : @world F Transform) :
  r = inl e -> lift r w = (inl e, w).
Proof. now intros ->. Qed.

Lemma len_content (ws : weights) (l : list F) (w : @world F Transform) :
  weights_content w ws = Some l -> len ws w = (inr (length l), w).
Proof.
  destruct ws as [l' | a | l']; cbn.
  - now intros [= ->].
  - intros Ha. unfold bind, deref. now rewrite Ha.
  - discriminate.
Qed.

Lemma imul_list (l rhs : list F) (w : @world F Transform) :
  imul (PyList l) rhs w = (multiply l rhs, w).
Proof. reflexivity. Qed.

Lemma imul_array_ok (a : nat) (l rhs r : list F) (w : @world F Transform) :
  heap w !! a = Some l -> imultiply l rhs = inr r ->
  imul (NdArray a) rhs w
  = (inr r, World (<[a := r]> (heap w)) (draws w) (cursor w) (log w)).
Proof.
  intros Ha Hr. cbn. unfold bind, deref, lift. now rewrite Ha, Hr.
Qed.

End Monad.


Section Triples.
Context {F : Type} `{Scalar F} {Transform : Type}.
Context (R : relation (@world F Transform)).
Context `{!Reflexive R} `{!Transitive R}.

Lemma triple_ret {A} (a : A) (P : A -> Prop) : P a -> triple R (ret a) P.
Proof. intros Ha w; split; [reflexivity | cbn; congruence]. Qed.

Lemma triple_raise {A} (e : exn) (P : A -> Prop) : triple R (raise e) P.
Proof. intros w; split; [reflexivity | cbn; congruence]. Qed.

Lemma triple_lift {A} (r : exn + A) (P : A -> Prop) :
  (forall a, r = inr a -> P a) -> triple R (lift r) P.
Proof. intros Hr w; split; [reflexivity | exact Hr]. Qed.

Lemma triple_bind {A B} (m : M A) (k : A -> M B)
    (P : A -> Prop) (Q : B -> Prop) :
  triple R m P -> (forall a, P a -> triple R (k a) Q) ->
  triple R (bind m k) Q.
Proof.
  intros Hm Hk w. unfold bind.
  destruct (Hm w) as [Hw HP]. destruct (m w) as [[e | a] w1]; cbn in *.
  - split; [assumption | congruence].
  - destruct (Hk a (HP a eq_refl) w1) as [Hw1 HQ].
    split; [etransitivity; eassumption | assumption].
Qed.

Lemma triple_weaken {A} (m : M A) (P Q : A -> Prop) :
  triple R m P -> (forall a, P a -> Q a) -> triple R m Q.
Proof. intros Hm HPQ w. destruct (Hm w). split; auto. Qed.

Lemma triple_deref (a : nat) : triple R (deref a) (fun _ => True).
Proof.
  intros w. unfold deref. destruct (heap w !! a); cbn; split; auto; reflexivity.
Qed.

Lemma triple_source_lms (image : Image) :
  triple R (source_lms image) (fun _ => True).
Proof.
  unfold source_lms. destruct (landmarks image !! "source").
  - now apply triple_ret.
  - apply triple_raise.
Qed.

Lemma triple_getattr_transform (self : AAM) :
  triple R (getattr_transform self) (fun _ => True).
Proof.
  unfold getattr_transform. destruct (transform_of self).
  - now apply triple_ret.
  - apply triple_raise.
Qed.

Lemma triple_getattr_patch_shape (self : AAM) :
  triple R (getattr_patch_shape self) (fun _ => True).
Proof.
  unfold getattr_patch_shape.
  destruct (cls self); (now apply triple_ret) || apply triple_raise.
Qed.
End Triples.

Section LogGrows.
Context {F : Type} `{Scalar F} {Transform : Type}.
Context (Q : @event F Transform -> Prop).

#[export] Instance log_grows_refl : Reflexive (log_grows Q).
Proof. intros w. exists []. now rewrite app_nil_r. Qed.

#[export] Instance log_grows_trans : Transitive (log_grows Q).
Proof.
  intros w1 w2 w3 [e1 [H1 F1]] [e2 [H2 F2]]. exists (e1 ++ e2). split.
  - now rewrite H2, H1, app_assoc.
  - now apply Forall_app.
Qed.

Lemma log_grows_emit (ev : event) :
  Q ev -> triple (log_grows Q) (emit ev) (fun _ => True).
Proof.
  intros Hev w; split; [| trivial]. exists [ev]; cbn. split; [reflexivity |].
  now constructor.
Qed.

Lemma log_grows_store (a : nat) (l : list F) :
  triple (log_grows Q) (store a l) (fun _ => True).
Proof.
  intros w; split; [| trivial]. exists []; cbn.
  split; [now rewrite app_nil_r | constructor].
Qed.

Lemma log_grows_randn (n : nat) :
  triple (log_grows Q) (randn n) (fun l => length l = n).
Proof.
  intros w; split.
  - exists []; cbn. split; [now rewrite app_nil_r | constructor].
  - cbn. intros a [= <-]. now rewrite length_map, length_seq.
Qed.
End LogGrows.

Section FrameworkCalls.
Context {F : Type} `{Scalar F} {Transform : Type}.
Context (fw : @Framework F Transform).
Context (R : relation (@world F Transform)).
Context `{!Reflexive R} `{!Transitive R}.
(** Every call to the framework is allowed by [R]. *)
Context (Hemit : forall ev : event,
            match ev with
            | CallShapeInstance _ | CallAppearanceInstance _ => True
            | _ => triple R (emit ev) (fun _ => True)
            end).

Lemma triple_lift_any {A} (r : exn + A) : triple R (lift r) (fun _ => True).
Proof. now apply triple_lift. Qed.

Ltac run :=
  repeat first
    [ apply triple_lift_any
    | apply triple_source_lms; assumption
    | apply triple_getattr_transform; assumption
    | apply triple_getattr_patch_shape; assumption
    | apply triple_raise; assumption
    | apply triple_ret; [assumption | exact I]
    | eapply triple_bind; [assumption | | intros ? _] ].

Lemma triple_build_reference_frame (self : AAM) (s lms : Shape) :
  triple R (_build_reference_frame fw self s lms) (fun _ => True).
Proof.
  unfold _build_reference_frame, GlobalAAM__build_reference_frame,
    PatchAAM__build_reference_frame.
  destruct (cls self); run;
    match goal with
    | |- triple _ (emit ?ev) _ => exact (Hemit ev)
    end.
Qed.

Lemma triple__instance (self : AAM) (level : Z) (si : Shape) (ai : Image) :
  triple R (_instance fw self level si ai) (fun _ => True).
Proof.
  unfold _instance, GlobalAAM__instance, PatchAAM__instance.
  destruct (cls self); run;
    try apply triple_build_reference_frame;
    run;
    match goal with
    | |- triple _ (emit ?ev) _ => exact (Hemit ev)
    end.
Qed.
End FrameworkCalls.

Section Claims.
Context {F : Type} `{Scalar F} {Transform : Type}.
Context (fw : @Framework F Transform).

(** *** Omitted weights *)

Lemma multiply_one_weight (x : F) (b : list F) :
  (length b <= 1)%nat ->
  forall v, multiply [x] b = inr v -> (length v <= 1)%nat.
Proof.
  intros Hb v. unfold multiply. destruct b as [| y [| z b]]; cbn in *.
  - intros [= <-]. cbn. lia.
  - intros [= <-]. cbn. lia.
  - lia.
Qed.

Lemma length_power_half_take (n : nat) (eig : list F) :
  (length (power_half (take n eig)) <= n)%nat.
Proof. unfold power_half. rewrite length_map, length_take. lia. Qed.

Lemma one_weight_framework_calls (ev : @event F Transform) :
  match ev with
  | CallShapeInstance _ | CallAppearanceInstance _ => True
  | _ => triple (log_grows at_most_one_weight) (emit ev) (fun _ => True)
  end.
Proof. destruct ev; trivial; now apply log_grows_emit. Qed.

Ltac side := first [typeclasses eauto | reflexivity | exact I].
Ltac bind_with tac := eapply triple_bind; [typeclasses eauto | tac |].
Ltac lift_any := apply triple_lift_any; side.

Lemma instance_omitted_log (self : AAM) (level : Z) :
  triple (log_grows at_most_one_weight)
         (instance fw self None None level) (fun _ => True).
Proof.
  unfold instance, len.
  bind_with lift_any. intros sm _.
  bind_with lift_any. intros am _.
  bind_with ltac:(apply (triple_ret _ _ (fun n => n = 1%nat)); side).
  intros n ->.
  bind_with ltac:(apply (triple_lift _ _ (fun v => (length v <= 1)%nat));
                  apply multiply_one_weight, length_power_half_take).
  intros vs Hvs.
  bind_with ltac:(unfold call_shape_instance;
                  bind_with ltac:(now apply log_grows_emit);
                  intros _ _; lift_any).
  intros si _.
  bind_with ltac:(apply (triple_ret _ _ (fun n => n = 1%nat)); side).
  intros n ->.
  bind_with ltac:(apply (triple_lift _ _ (fun v => (length v <= 1)%nat));
                  apply multiply_one_weight, length_power_half_take).
  intros va Hva.
  bind_with ltac:(unfold call_appearance_instance;
                  bind_with ltac:(now apply log_grows_emit);
                  intros _ _; lift_any).
  intros ai _.
  apply triple__instance; try typeclasses eauto.
  apply one_weight_framework_calls.
Qed.

(** C1.  Calling [instance] with both weight vectors omitted is the same
    computation as calling it with the one-element lists [[0]] and
    [[0]], for every variant and every level: same result, same final
    world.  Each PCA model is then handed a vector of at most one
    weight, never a full-length zero vector. *)
Theorem instance_omitted_weights (self : AAM) (level : Z) (w : world) :
  instance fw self None None level w
  = instance fw self (Some (PyList [fzero])) (Some (PyList [fzero])) level w
  /\ log_grows at_most_one_weight w (instance fw self None None level w).2.
Proof.
  split; [reflexivity |]. apply (instance_omitted_log self level w).
Qed.

(** *** Composition of an instance *)

(** The body shared by [GlobalAAM._instance] and [PatchAAM._instance],
    once the template landmarks and the reference frame are known. *)
Lemma instance_body (self : AAM) (level : Z) (si : Shape) (ai : Image)
    (body : AAM -> Z -> Shape -> Image -> M Image)
    (w w1 : world) (am : PCAModel Image) (lms frame_lms : Shape)
    (frame warped : Image) (c : Callable) (t : Transform) :
  body = GlobalAAM__instance fw \/ body = PatchAAM__instance fw ->
  getitem (appearance_models self) level = inr am ->
  landmarks (mean am) !! "source" = Some lms ->
  _build_reference_frame fw self si lms w = (inr frame, w1) ->
  transform_of self = Some c ->
  landmarks frame !! "source" = Some frame_lms ->
  call_transform fw c frame_lms lms = inr t ->
  warp_to_mask fw ai (mask frame) t = inr warped ->
  body self level si ai w
  = (inr (set_landmarks warped (landmarks frame)),
     World (heap w1) (draws w1) (cursor w1)
           (log w1 ++ [CallTransform c frame_lms lms;
                       CallWarpToMask ai (mask frame) t])).
Proof.
  intros Hbody Ham Hlms Hframe Hc Hflms Ht Hwarp.
  destruct Hbody as [-> | ->];
    unfold GlobalAAM__instance, PatchAAM__instance, bind, lift, source_lms,
      getattr_transform, emit, ret;
    rewrite Ham, Hlms, Hframe, Hc, Hflms; cbn;
    rewrite Ht, Hwarp; cbn;
    now rewrite <- app_assoc.
Qed.

(** C5.  In [GlobalAAM._instance] and [PatchAAM._instance] the transform
    is built by [self.transform(frame_lms, lms)], with the ['source']
    landmarks of the reference frame first and the ['source'] landmarks
    of the level's mean appearance second; the image returned is the
    warped image with its landmarks replaced by those of the reference
    frame, whatever landmarks the warped image had. *)
Theorem instance_transform_and_landmarks
    (self : AAM) (level : Z) (si : Shape) (ai : Image) (w w1 : world)
    (am : PCAModel Image) (lms frame_lms : Shape)
    (frame warped : Image) (c : Callable) (t : Transform) :
  (exists tr, cls self = GlobalAAM tr) \/ (exists ps, cls self = PatchAAM ps) ->
  getitem (appearance_models self) level = inr am ->
  landmarks (mean am) !! "source" = Some lms ->
  _build_reference_frame fw self si lms w = (inr frame, w1) ->
  transform_of self = Some c ->
  landmarks frame !! "source" = Some frame_lms ->
  call_transform fw c frame_lms lms = inr t ->
  warp_to_mask fw ai (mask frame) t = inr warped ->
  exists image,
    _instance fw self level si ai w
    = (inr image,
       World (heap w1) (draws w1) (cursor w1)
             (log w1 ++ [CallTransform c frame_lms lms;
                         CallWarpToMask ai (mask frame) t]))
    /\ landmarks image = landmarks frame
    /\ pixels image = pixels warped
    /\ mask image = mask warped.
Proof.
  intros Hcls Ham Hlms Hframe Hc Hflms Ht Hwarp.
  exists (set_landmarks warped (landmarks frame)).
  split; [| now cbn].
  unfold _instance.
  destruct Hcls as [[tr Hcls] | [ps Hcls]]; rewrite Hcls;
    eapply instance_body; eauto.
Qed.

(** *** The log only grows *)

Lemma any_framework_call (ev : @event F Transform) :
  match ev with
  | CallShapeInstance _ | CallAppearanceInstance _ => True
  | _ => triple (log_grows any_event) (emit ev) (fun _ => True)
  end.
Proof. destruct ev; trivial; now apply log_grows_emit. Qed.

Ltac appends_step :=
  first
    [ apply triple_lift_any; side
    | apply triple_ret; side
    | apply triple_raise; side
    | apply triple_deref; side
    | apply log_grows_store
    | apply log_grows_emit; exact I
    | apply triple__instance; [side | side | apply any_framework_call]
    | eapply triple_weaken; [apply log_grows_randn | intros ? _; exact I]
    | eapply triple_bind; [side | | intros ? _] ].



Lemma appends_call_shape_instance sm v :
  @appends F Transform _ (call_shape_instance sm v).
Proof. unfold appends, call_shape_instance. repeat appends_step. Qed.


Lemma appends__instance self level si ai :
  appends (_instance fw self level si ai).
Proof. unfold appends. appends_step. Qed.

Lemma appends_bind {A B} (m : @M F Transform A) (k : A -> M B) :
  appends m -> (forall a, appends (k a)) -> appends (bind m k).
Proof.
  intros Hm Hk. unfold appends in *.
  eapply triple_bind; [side | exact Hm | intros a _; apply Hk].
Qed.

Lemma appends_lift {A} (r : exn + A) : @appends F Transform _ (lift r).
Proof. unfold appends. appends_step. Qed.

(** After an event is logged, it stays where it is. *)
Lemma log_after {A} (m : @M F Transform A) (w : world) :
  appends m -> exists evs, log (m w).2 = log w ++ evs.
Proof. intros Hm. destruct (Hm w) as [[evs [Hlog _]] _]. eauto. Qed.

(** *** The steps of [instance] *)




Lemma instance_after_appearance_scaling
    (self : AAM) (sw aw : weights) (level : Z)
    (w w1 w2 : world) (sm : PCAModel Shape) (am : PCAModel Image)
    (ls vs la va : list F) (si : Shape) :
  getitem (shape_models self) level = inr sm ->
  getitem (appearance_models self) level = inr am ->
  weights_content w sw = Some ls ->
  imul sw (power_half (take (length ls) (eigenvalues sm))) w = (inr vs, w1) ->
  pca_instance sm vs = inr si ->
  weights_content (logged w1 [CallShapeInstance vs]) aw = Some la ->
  imul aw (power_half (take (length la) (eigenvalues am)))
       (logged w1 [CallShapeInstance vs]) = (inr va, w2) ->
  instance fw self (Some sw) (Some aw) level w
  = bind (lift (pca_instance am va))
         (fun ai => _instance fw self level si ai)
         (logged w2 [CallAppearanceInstance va]).
Proof.
  intros Hsm Ham Hls Hs Hsi Hla Ha. unfold instance.
  rewrite (bind_ok _ _ _ _ _ (lift_ok _ _ w Hsm)).
  rewrite (bind_ok _ _ _ _ _ (lift_ok _ _ w Ham)).
  rewrite (bind_ok _ _ _ _ _ (len_content _ _ _ Hls)).
  rewrite (bind_ok _ _ _ _ _ Hs).
  assert (Hcall : call_shape_instance sm vs w1
                  = (inr si, logged w1 [CallShapeInstance vs])).
  { unfold call_shape_instance, bind, emit, lift. cbn. now rewrite Hsi. }
  rewrite (bind_ok _ _ _ _ _ Hcall).
  rewrite (bind_ok _ _ _ _ _ (len_content _ _ _ Hla)).
  rewrite (bind_ok _ _ _ _ _ Ha).
  reflexivity.
Qed.

(** *** Broadcasting *)



Lemma multiply_same_length (l b : list F) :
  length l = length b -> multiply l b = inr (zip_with fmul l b).
Proof.
  intros Hl. unfold multiply. now destruct (decide (length l = length b)).
Qed.

Lemma imultiply_same_length (l b : list F) :
  length l = length b -> imultiply l b = inr (zip_with fmul l b).
Proof.
  intros Hl. unfold imultiply. now destruct (decide (length l = length b)).
Qed.



(** Scaling a vector that is longer than the eigenvalues, one case at a
    time. *)


Lemma scale_without_eigenvalues (x : F) (w : @world F Transform) :
  imul (PyList [x]) (power_half (take 1 [])) w = (inr [], w).
Proof. reflexivity. Qed.


(** *** Weight vectors longer than the eigenvalues *)










(** *** The reference frame of [GlobalAAM] *)

(** C4, as amended.  [GlobalAAM._build_reference_frame] takes the
    triangle list from its second argument, the landmarks of the
    template, and only when that object is of type [TriMesh] itself:
    then [build_reference_frame] is called with its triangle list.  For
    a point cloud, and for an object of a subclass of [TriMesh], it is
    called with [trilist=None].  The kind of the shape instance, the
    first argument, plays no part, and the method adds no failure of
    its own: it returns what [build_reference_frame] returns. *)
Theorem build_reference_frame_trilist
    (self : AAM) (reference_shape : Shape) (w : world) :
  (forall points trilist,
      GlobalAAM__build_reference_frame fw self reference_shape
        (TriMesh points trilist) w
      = (build_reference_frame fw reference_shape (Some trilist),
         logged w [CallBuildReferenceFrame reference_shape (Some trilist)]))
  /\ (forall points,
      GlobalAAM__build_reference_frame fw self reference_shape
        (PointCloud points) w
      = (build_reference_frame fw reference_shape None,
         logged w [CallBuildReferenceFrame reference_shape None]))
  /\ (forall points trilist colours,
      GlobalAAM__build_reference_frame fw self reference_shape
        (ColouredTriMesh points trilist colours) w
      = (build_reference_frame fw reference_shape None,
         logged w [CallBuildReferenceFrame reference_shape None])).
Proof.
  repeat split; intros; unfold GlobalAAM__build_reference_frame, bind, emit,
    lift, logged; cbn;
    now destruct (build_reference_frame fw reference_shape _).
Qed.

(** *** Runs in which both models produce their instance *)

Lemma call_shape_instance_ok sm vs si (w : @world F Transform) :
  pca_instance sm vs = inr si ->
  call_shape_instance sm vs w = (inr si, logged w [CallShapeInstance vs]).
Proof.
  intros Hsi. unfold call_shape_instance, bind, emit, lift. cbn.
  now rewrite Hsi.
Qed.

Lemma call_appearance_instance_ok am va ai (w : @world F Transform) :
  pca_instance am va = inr ai ->
  call_appearance_instance am va w
  = (inr ai, logged w [CallAppearanceInstance va]).
Proof.
  intros Hai. unfold call_appearance_instance, bind, emit, lift. cbn.
  now rewrite Hai.
Qed.

Lemma instance_lists_run
    (self : AAM) (level : Z) (w : world)
    (sm : PCAModel Shape) (am : PCAModel Image)
    (ls la vs va : list F) (si : Shape) (ai : Image) :
  getitem (shape_models self) level = inr sm ->
  getitem (appearance_models self) level = inr am ->
  multiply ls (power_half (take (length ls) (eigenvalues sm))) = inr vs ->
  pca_instance sm vs = inr si ->
  multiply la (power_half (take (length la) (eigenvalues am))) = inr va ->
  pca_instance am va = inr ai ->
  instance fw self (Some (PyList ls)) (Some (PyList la)) level w
  = _instance fw self level si ai
      (logged w [CallShapeInstance vs; CallAppearanceInstance va]).
Proof.
  intros Hsm Ham Hvs Hsi Hva Hai.
  rewrite (instance_after_appearance_scaling self (PyList ls) (PyList la)
             level w w (logged w [CallShapeInstance vs]) sm am
             ls vs la va si Hsm Ham eq_refl);
    try assumption; try reflexivity.
  - rewrite (bind_ok _ _ _ _ _ (lift_ok _ _ _ Hai)).
    unfold logged; cbn. now rewrite <- app_assoc.
  - rewrite imul_list. now rewrite Hvs.
  - rewrite imul_list. now rewrite Hva.
Qed.

Lemma random_instance_run
    (self : AAM) (level : Z) (w : world)
    (sm : PCAModel Shape) (am : PCAModel Image)
    (vs va : list F) (si : Shape) (ai : Image) :
  let ns := n_active_components sm in
  let na := n_active_components am in
  let ds := map (draws w) (seq (cursor w) ns) in
  let da := map (draws w) (seq (cursor w + ns) na) in
  getitem (shape_models self) level = inr sm ->
  getitem (appearance_models self) level = inr am ->
  multiply ds (power_half (take ns (eigenvalues sm))) = inr vs ->
  pca_instance sm vs = inr si ->
  multiply da (power_half (take na (eigenvalues am))) = inr va ->
  pca_instance am va = inr ai ->
  random_instance fw self level w
  = _instance fw self level si ai
      (World (heap w) (draws w) (cursor w + ns + na)
             (log w ++ [CallShapeInstance vs; CallAppearanceInstance va])).
Proof.
  intros ns na ds da Hsm Ham Hvs Hsi Hva Hai. unfold random_instance.
  rewrite (bind_ok _ _ _ _ _ (lift_ok _ _ w Hsm)).
  rewrite (bind_ok _ _ _ _ _ (lift_ok _ _ w Ham)).
  unfold bind at 1, randn at 1.
  fold ns ds. rewrite (bind_ok _ _ _ _ _ (lift_ok _ _ _ Hvs)).
  rewrite (bind_ok _ _ _ _ _ (call_shape_instance_ok _ _ _ _ Hsi)).
  unfold bind at 1, randn at 1. cbn [draws cursor logged heap log].
  fold na da. rewrite (bind_ok _ _ _ _ _ (lift_ok _ _ _ Hva)).
  rewrite (bind_ok _ _ _ _ _ (call_appearance_instance_ok _ _ _ _ Hai)).
  unfold logged; cbn. now rewrite <- app_assoc.
Qed.

(** *** Scaling within the eigenvalues *)

Lemma scaled_entry (ws eig : list F) (i : nat) (x e : F) :
  ws !! i = Some x -> eig !! i = Some e ->
  scaled ws eig !! i = Some (fmul x (fsqrt e)).
Proof.
  intros Hx He. unfold scaled, power_half.
  change (map fsqrt eig) with (fsqrt <$> eig).
  now rewrite lookup_zip_with, Hx, list_lookup_fmap, He.
Qed.

Lemma length_scaled (ws eig : list F) :
  (length ws <= length eig)%nat -> length (scaled ws eig) = length ws.
Proof.
  intros Hlen. unfold scaled, power_half.
  rewrite length_zip_with, length_map. lia.
Qed.

Lemma multiply_within (ws eig : list F) :
  (length ws <= length eig)%nat ->
  multiply ws (power_half (take (length ws) eig)) = inr (scaled ws eig).
Proof.
  intros Hlen. rewrite multiply_same_length.
  - unfold scaled, power_half. f_equal.
    change (map fsqrt (take (length ws) eig))
      with (fsqrt <$> take (length ws) eig).
    change (map fsqrt eig) with (fsqrt <$> eig).
    rewrite fmap_take. apply zip_with_take_r.
  - unfold power_half. rewrite length_map, length_take. lia.
Qed.

Lemma imultiply_within (ws eig : list F) :
  (length ws <= length eig)%nat ->
  imultiply ws (power_half (take (length ws) eig)) = inr (scaled ws eig).
Proof.
  intros Hlen. rewrite imultiply_same_length.
  - rewrite <- multiply_within by assumption.
    now rewrite multiply_same_length
      by (unfold power_half; rewrite length_map, length_take; lia).
  - unfold power_half. rewrite length_map, length_take. lia.
Qed.

Lemma length_next_draws (w : @world F Transform) (skip n : nat) :
  length (next_draws w skip n) = n.
Proof. unfold next_draws. now rewrite length_map, length_seq. Qed.

(** *** Random instances *)

Lemma next_draws_0 (w : @world F Transform) (n : nat) :
  next_draws w 0 n = map (draws w) (seq (cursor w) n).
Proof. unfold next_draws. now rewrite Nat.add_0_r. Qed.

(** C8.  At a level where both models exist, with PCA models that have
    an eigenvalue for each active component, and when both models
    produce their instance: [random_instance] draws as many weights as
    the model has active components, first for the shape model and then
    for the appearance model, multiplies draw [i] by the square root of
    eigenvalue [i], hands the two vectors, at full length, to the two
    models, and ends with the same call of [_instance] as [instance]
    does when it is given the drawn vectors. *)
Theorem random_instance_full_length
    (self : AAM) (level : Z) (w : world)
    (sm : PCAModel Shape) (am : PCAModel Image) (si : Shape) (ai : Image) :
  getitem (shape_models self) level = inr sm ->
  getitem (appearance_models self) level = inr am ->
  (n_active_components sm <= length (eigenvalues sm))%nat ->
  (n_active_components am <= length (eigenvalues am))%nat ->
  pca_instance sm
    (scaled (next_draws w 0 (n_active_components sm)) (eigenvalues sm))
  = inr si ->
  pca_instance am
    (scaled (next_draws w (n_active_components sm) (n_active_components am))
            (eigenvalues am))
  = inr ai ->
  let ns := n_active_components sm in
  let na := n_active_components am in
  let ds := next_draws w 0 ns in
  let da := next_draws w ns na in
  let vs := scaled ds (eigenvalues sm) in
  let va := scaled da (eigenvalues am) in
  (length ds = ns /\ length vs = ns
   /\ forall i d e, ds !! i = Some d -> eigenvalues sm !! i = Some e ->
                    vs !! i = Some (fmul d (fsqrt e)))
  /\ (length da = na /\ length va = na
      /\ forall i d e, da !! i = Some d -> eigenvalues am !! i = Some e ->
                       va !! i = Some (fmul d (fsqrt e)))
  /\ random_instance fw self level w
     = _instance fw self level si ai
         (World (heap w) (draws w) (cursor w + ns + na)
                (log w ++ [CallShapeInstance vs; CallAppearanceInstance va]))
  /\ instance fw self (Some (PyList ds)) (Some (PyList da)) level w
     = _instance fw self level si ai
         (logged w [CallShapeInstance vs; CallAppearanceInstance va]).
Proof.
  intros Hsm Ham Hns Hna Hsi Hai ns na ds da vs va.
  assert (Hds : length ds = ns) by apply length_next_draws.
  assert (Hda : length da = na) by apply length_next_draws.
  assert (Hvs : multiply ds (power_half (take ns (eigenvalues sm))) = inr vs).
  { rewrite <- Hds at 1. apply multiply_within. lia. }
  assert (Hva : multiply da (power_half (take na (eigenvalues am))) = inr va).
  { rewrite <- Hda at 1. apply multiply_within. lia. }
  repeat split.
  - exact Hds.
  - unfold vs. rewrite length_scaled; lia.
  - intros i d e. apply scaled_entry.
  - exact Hda.
  - unfold va. rewrite length_scaled; lia.
  - intros i d e. apply scaled_entry.
  - apply random_instance_run; try assumption.
    unfold ds, ns in Hvs. now rewrite next_draws_0 in Hvs.
  - apply instance_lists_run with (sm := sm) (am := am); try assumption.
    + now rewrite Hds.
    + now rewrite Hda.
Qed.

(** *** Classes without [_instance] *)

Lemma bind_never_returns {A B} (m : @M F Transform A) (k : A -> M B) :
  (forall a w, exists e w1, k a w = (inl e, w1)) ->
  forall w, exists e w1, bind m k w = (inl e, w1).
Proof.
  intros Hk w. unfold bind. destruct (m w) as [[e | a] w1]; eauto.
Qed.

Lemma no__instance (self : AAM) :
  (exists t n, cls self = LinearGlobalAAM t n)
  \/ (exists ps n, cls self = LinearPatchAAM ps n) ->
  forall level si ai (w : world),
    _instance fw self level si ai w = (inl (AttributeError "_instance"), w).
Proof.
  intros [[t [n Hcls]] | [ps [n Hcls]]] level si ai w;
    unfold _instance; now rewrite Hcls.
Qed.

(** C6.  [LinearGlobalAAM] and [LinearPatchAAM] inherit [instance] and
    [random_instance] from the base class and define no [_instance].
    The lookup of [self._instance] raises [AttributeError], the
    unsupported-operation error of a Python object, so neither method
    ever returns an image, at any level and for any weights.  When the
    level exists and both PCA models produce their instance, the error
    of [instance()] and of [random_instance()] is that
    [AttributeError]; it is raised after both models have been
    called. *)
Theorem linear_variants_do_not_synthesise (self : AAM) :
  (exists t n, cls self = LinearGlobalAAM t n)
  \/ (exists ps n, cls self = LinearPatchAAM ps n) ->
  (forall level si ai (w : world),
      _instance fw self level si ai w
      = (inl (AttributeError "_instance"), w))
  /\ (forall sw aw level (w : world),
         exists e w1, instance fw self sw aw level w = (inl e, w1))
  /\ (forall level (w : world),
         exists e w1, random_instance fw self level w = (inl e, w1))
  /\ (forall level (w : world) sm am vs va si ai,
         getitem (shape_models self) level = inr sm ->
         getitem (appearance_models self) level = inr am ->
         multiply [fzero] (power_half (take 1 (eigenvalues sm))) = inr vs ->
         pca_instance sm vs = inr si ->
         multiply [fzero] (power_half (take 1 (eigenvalues am))) = inr va ->
         pca_instance am va = inr ai ->
         instance fw self None None level w
         = (inl (AttributeError "_instance"),
            logged w [CallShapeInstance vs; CallAppearanceInstance va]))
  /\ (forall level (w : world) sm am vs va si ai,
         getitem (shape_models self) level = inr sm ->
         getitem (appearance_models self) level = inr am ->
         multiply (next_draws w 0 (n_active_components sm))
                  (power_half (take (n_active_components sm)
                                    (eigenvalues sm))) = inr vs ->
         pca_instance sm vs = inr si ->
         multiply (next_draws w (n_active_components sm)
                              (n_active_components am))
                  (power_half (take (n_active_components am)
                                    (eigenvalues am))) = inr va ->
         pca_instance am va = inr ai ->
         random_instance fw self level w
         = (inl (AttributeError "_instance"),
            World (heap w) (draws w)
                  (cursor w + n_active_components sm
                   + n_active_components am)
                  (log w ++ [CallShapeInstance vs;
                             CallAppearanceInstance va]))).
Proof.
  intros Hcls. pose proof (no__instance self Hcls) as Hno.
  split; [exact Hno |]. split; [| split; [| split]].
  - intros sw aw level. unfold instance.
    repeat (apply bind_never_returns; intros ?). intros w'.
    rewrite Hno. eauto.
  - intros level. unfold random_instance.
    repeat (apply bind_never_returns; intros ?). intros w'.
    rewrite Hno. eauto.
  - intros level w sm am vs va si ai Hsm Ham Hvs Hsi Hva Hai.
    change (instance fw self None None level w)
      with (instance fw self (Some (PyList [fzero]))
              (Some (PyList [fzero])) level w).
    rewrite (instance_lists_run self level w sm am [fzero] [fzero]
               vs va si ai Hsm Ham Hvs Hsi Hva Hai).
    apply Hno.
  - intros level w sm am vs va si ai Hsm Ham Hvs Hsi Hva Hai.
    rewrite (random_instance_run self level w sm am vs va si ai Hsm Ham);
      try assumption.
    + apply Hno.
    + now rewrite <- next_draws_0.
Qed.

(** *** The serialisation adapter *)

Lemma dict_features (self : @AAM F) :
  __dict__ self !! "features" = Some (features self).
Proof. unfold __dict__. now simplify_map_eq. Qed.

Lemma dict_transform (self : @AAM F) :
  __dict__ self !! "transform" = VCallable <$> transform_of self.
Proof.
  unfold __dict__, transform_of, class_dict.
  destruct (cls self); now simplify_map_eq.
Qed.

Lemma pop_found (k : string) (d : gmap string (@value F)) (v : value) :
  d !! k = Some v -> pop k d = inr (v, delete k d).
Proof. intros Hk. unfold pop. now rewrite Hk. Qed.

Lemma dom_replace (k : string) (d : gmap string (@value F)) (v x : value) :
  d !! k = Some v -> dom (<[k := x]> (delete k d)) = dom d.
Proof.
  intros Hk. rewrite insert_delete_eq. apply dom_insert_lookup_L. eauto.
Qed.

(** C9.  For an object whose [features] is iterable when the
    scale-features flag is not set, the adapter returns a dictionary
    with the keys of [self.__dict__]; every entry other than
    [transform] and [features] is the entry of [self.__dict__];
    [features] is one wrapped value when the flag is set, and otherwise
    the list of the wrapped elements of [features], in their order;
    [transform] is wrapped where the class has it.  For [PartsAAM],
    which has no [transform], the result is [self.__dict__] with only
    [features] replaced. *)
Theorem serializable_dict_fields (self : @AAM F) (fs : list value) :
  (scale_features self = false -> iterate (features self) = inr fs) ->
  exists d,
    h5_dict_to_serializable_dict self = inr d
    /\ dom d = dom (__dict__ self)
    /\ (forall k, k <> "transform" -> k <> "features" ->
                  d !! k = __dict__ self !! k)
    /\ d !! "features"
       = Some (if scale_features self
               then SerializableCallable (features self) ["aam.feature"]
               else VList (map (fun f => SerializableCallable f ["aam.feature"])
                               fs))
    /\ d !! "transform"
       = (fun t => SerializableCallable (VCallable t) ["menpo.transform"])
           <$> transform_of self
    /\ (forall ps, cls self = PartsAAM ps ->
                   __dict__ self !! "transform" = None
                   /\ forall k, k <> "features" -> d !! k = __dict__ self !! k).
Proof.
  intros Hfs.
  pose proof (dict_features self) as Hf.
  pose proof (dict_transform self) as Ht.
  set (wrapped :=
         if scale_features self
         then SerializableCallable (features self) ["aam.feature"]
         else VList (map (fun f => SerializableCallable f ["aam.feature"]) fs)).
  destruct (transform_of self) as [t |] eqn:Htr.
  - exists (<["features" := wrapped]>
              (delete "features"
                 (<["transform" :=
                      SerializableCallable (VCallable t) ["menpo.transform"]]>
                    (delete "transform" (__dict__ self))))).
    split; [| split; [| split; [| split; [| split]]]].
    + assert (Hcls : h5_dict_to_serializable_dict self
                     = AAM_h5_dict_to_serializable_dict self).
      { unfold h5_dict_to_serializable_dict, transform_of in *.
        now destruct (cls self). }
      rewrite Hcls. unfold AAM_h5_dict_to_serializable_dict.
      rewrite (pop_found _ _ _ Ht). cbn.
      erewrite pop_found
        by (rewrite lookup_insert_ne, lookup_delete_ne by done; exact Hf).
      unfold wrapped. destruct (scale_features self); [reflexivity |].
      now rewrite Hfs.
    + erewrite dom_replace
        by (rewrite lookup_insert_ne, lookup_delete_ne by done; exact Hf).
      now erewrite dom_replace by exact Ht.
    + intros k Hk1 Hk2.
      now rewrite lookup_insert_ne, lookup_delete_ne, lookup_insert_ne,
        lookup_delete_ne by done.
    + now rewrite lookup_insert_eq.
    + rewrite lookup_insert_ne, lookup_delete_ne by done.
      now rewrite lookup_insert_eq.
    + intros ps Hps. unfold transform_of in Htr. now rewrite Hps in Htr.
  - assert (Hcls : exists ps, cls self = PartsAAM ps).
    { unfold transform_of in Htr. destruct (cls self); try discriminate. eauto. }
    destruct Hcls as [ps Hcls].
    exists (<["features" := wrapped]> (delete "features" (__dict__ self))).
    split; [| split; [| split; [| split; [| split]]]].
    + unfold h5_dict_to_serializable_dict. rewrite Hcls.
      unfold PartsAAM_h5_dict_to_serializable_dict.
      rewrite (pop_found _ _ _ Hf).
      unfold wrapped. destruct (scale_features self); [reflexivity |].
      now rewrite Hfs.
    + now erewrite dom_replace by exact Hf.
    + intros k Hk1 Hk2. now rewrite lookup_insert_ne, lookup_delete_ne by done.
    + now rewrite lookup_insert_eq.
    + rewrite lookup_insert_ne, lookup_delete_ne by done. exact Ht.
    + intros ps' _. split; [exact Ht |]. intros k Hk.
      now rewrite lookup_insert_ne, lookup_delete_ne by done.
Qed.

(** *** Scaling of the caller's vectors *)

Lemma imul_within (ws : weights) (ls eig : list F) (w : @world F Transform) :
  weights_content w ws = Some ls ->
  (length ls <= length eig)%nat ->
  exists w1,
    imul ws (power_half (take (length ls) eig)) w = (inr (scaled ls eig), w1)
    /\ log w1 = log w
    /\ heap w1 = match ws with
                 | NdArray a => <[a := scaled ls eig]> (heap w)
                 | _ => heap w
                 end.
Proof.
  intros Hls Hlen. destruct ws as [l | a | li]; cbn in Hls.
  - injection Hls as ->. exists w. rewrite imul_list.
    now rewrite multiply_within.
  - eexists. split; [| split].
    + eapply imul_array_ok; [exact Hls |]. now apply imultiply_within.
    + reflexivity.
    + reflexivity.
  - discriminate.
Qed.


(** The appearance model is handed the vector that the appearance
    argument holds once the shape weights have been scaled, with entry
    [i] multiplied by the square root of eigenvalue [i]. *)
Lemma instance_hands_scaled_appearance_weights
    (self : AAM) (sw aw : weights) (level : Z) (w w1 : world)
    (sm : PCAModel Shape) (am : PCAModel Image)
    (ls vs la : list F) (si : Shape) :
  getitem (shape_models self) level = inr sm ->
  getitem (appearance_models self) level = inr am ->
  weights_content w sw = Some ls ->
  imul sw (power_half (take (length ls) (eigenvalues sm))) w = (inr vs, w1) ->
  pca_instance sm vs = inr si ->
  weights_content (logged w1 [CallShapeInstance vs]) aw = Some la ->
  (length la <= length (eigenvalues am))%nat ->
  exists evs,
    log (instance fw self (Some sw) (Some aw) level w).2
    = log w1 ++ CallShapeInstance vs
        :: CallAppearanceInstance (scaled la (eigenvalues am)) :: evs.
Proof.
  intros Hsm Ham Hls Hs Hsi Hla Hlen.
  destruct (imul_within aw la (eigenvalues am) _ Hla Hlen)
    as [w2 [Ha [Hlog _]]].
  rewrite (instance_after_appearance_scaling self sw aw level w w1 w2
             sm am ls vs la _ si Hsm Ham Hls Hs Hsi Hla Ha).
  match goal with
  | |- context [log (?m ?w0).2] => destruct (log_after m w0) as [evs Hevs]
  end.
  - apply appends_bind; [apply appends_lift |]. intros ai.
    apply appends__instance.
  - exists evs. rewrite Hevs. cbn. rewrite Hlog. cbn.
    now rewrite <- !app_assoc.
Qed.

(** When the caller passes one array as both arguments, the appearance
    argument holds the scaled shape weights by the time it is scaled:
    the appearance model is handed [w_i * sqrt(s_i) * sqrt(a_i)]. *)
Lemma instance_one_array_for_both_vectors
    (self : AAM) (a : nat) (level : Z) (w : world)
    (sm : PCAModel Shape) (am : PCAModel Image) (ls : list F) (si : Shape) :
  getitem (shape_models self) level = inr sm ->
  getitem (appearance_models self) level = inr am ->
  heap w !! a = Some ls ->
  (length ls <= length (eigenvalues sm))%nat ->
  (length ls <= length (eigenvalues am))%nat ->
  pca_instance sm (scaled ls (eigenvalues sm)) = inr si ->
  exists evs,
    log (instance fw self (Some (NdArray a)) (Some (NdArray a)) level w).2
    = log w ++ CallShapeInstance (scaled ls (eigenvalues sm))
        :: CallAppearanceInstance
             (scaled (scaled ls (eigenvalues sm)) (eigenvalues am))
        :: evs.
Proof.
  intros Hsm Ham Hls Hlen_s Hlen_a Hsi.
  destruct (imul_within (NdArray a) ls (eigenvalues sm) w Hls Hlen_s)
    as [w1 [Hs [Hlog Hheap]]].
  destruct (instance_hands_scaled_appearance_weights self (NdArray a)
              (NdArray a) level w w1 sm am ls _
              (scaled ls (eigenvalues sm)) si Hsm Ham Hls Hs Hsi)
    as [evs Hevs].
  - cbn. rewrite Hheap. apply lookup_insert_eq.
  - rewrite length_scaled; lia.
  - exists evs. now rewrite Hevs, Hlog.
Qed.

(** *** The store *)

#[export] Instance same_heap_refl : Reflexive (@same_heap F Transform).
Proof. intros w. reflexivity. Qed.

#[export] Instance same_heap_trans : Transitive (@same_heap F Transform).
Proof. intros w1 w2 w3 H12 H23. unfold same_heap in *. congruence. Qed.

Lemma same_heap_emit (ev : @event F Transform) :
  triple same_heap (emit ev) (fun _ => True).
Proof. intros w; split; [reflexivity | trivial]. Qed.

Lemma same_heap_randn (n : nat) :
  triple (@same_heap F Transform) (randn n) (fun _ => True).
Proof. intros w; split; [reflexivity | trivial]. Qed.

Lemma same_heap_framework_call (ev : @event F Transform) :
  match ev with
  | CallShapeInstance _ | CallAppearanceInstance _ => True
  | _ => triple same_heap (emit ev) (fun _ => True)
  end.
Proof. destruct ev; trivial; apply same_heap_emit. Qed.

Ltac heap_step :=
  first
    [ apply triple_lift_any; side
    | apply triple_ret; side
    | apply triple_raise; side
    | apply same_heap_emit
    | apply same_heap_randn
    | apply triple__instance; [side | side | apply same_heap_framework_call]
    | eapply triple_bind; [side | | intros ? _] ].

(** With lists, or nothing, for both weight vectors, [instance] writes to
    no array. *)
Lemma instance_lists_keep_heap
    (self : AAM) (ls la : list F) (level : Z) (w : world) :
  heap (instance fw self (Some (PyList ls)) (Some (PyList la)) level w).2
  = heap w.
Proof.
  assert (Ht : triple same_heap
                 (instance fw self (Some (PyList ls)) (Some (PyList la)) level)
                 (fun _ => True)).
  { unfold instance, len, imul, call_shape_instance,
      call_appearance_instance.
    repeat heap_step. }
  apply (Ht w).
Qed.

(** [random_instance] writes to no array. *)
Lemma random_instance_keeps_heap (self : AAM) (level : Z) (w : world) :
  heap (random_instance fw self level w).2 = heap w.
Proof.
  assert (Ht : triple same_heap (random_instance fw self level)
                 (fun _ => True)).
  { unfold random_instance, call_shape_instance, call_appearance_instance.
    repeat heap_step. }
  apply (Ht w).
Qed.

(** With an array for the shape weights, the caller's array holds the
    scaled weights after the call. *)
Lemma instance_overwrites_shape_array
    (self : AAM) (a : nat) (la : list F) (level : Z) (w : world)
    (sm : PCAModel Shape) (am : PCAModel Image) (ls : list F) :
  getitem (shape_models self) level = inr sm ->
  getitem (appearance_models self) level = inr am ->
  heap w !! a = Some ls ->
  (length ls <= length (eigenvalues sm))%nat ->
  heap (instance fw self (Some (NdArray a)) (Some (PyList la)) level w).2 !! a
  = Some (scaled ls (eigenvalues sm)).
Proof.
  intros Hsm Ham Hls Hlen.
  destruct (imul_within (NdArray a) ls (eigenvalues sm) w Hls Hlen)
    as [w1 [Hs [_ Hheap]]].
  unfold instance.
  rewrite (bind_ok _ _ _ _ _ (lift_ok _ _ w Hsm)).
  rewrite (bind_ok _ _ _ _ _ (lift_ok _ _ w Ham)).
  rewrite (bind_ok _ _ _ _ _ (len_content (NdArray a) ls w Hls)).
  rewrite (bind_ok _ _ _ _ _ Hs).
  match goal with
  | |- heap (?m w1).2 !! a = _ =>
      assert (Ht : triple same_heap m (fun _ => True))
  end.
  { unfold len, imul, call_shape_instance, call_appearance_instance.
    repeat heap_step. }
  destruct (Ht w1) as [Hsame _]. unfold same_heap in Hsame.
  rewrite Hsame, Hheap. apply lookup_insert_eq.
Qed.

End Claims.

(** * Examples *)

(** Indexing, with the default level [-1]. *)
Example getitem_last : getitem [10; 20; 30] (-1) = inr 30.
Proof. reflexivity. Qed.

Example getitem_out_of_range : getitem [10; 20; 30] 3 = inl IndexError.
Proof. reflexivity. Qed.

Example getitem_below_range : getitem [10; 20; 30] (-4) = inl IndexError.
Proof. reflexivity. Qed.

(** Broadcasting: a one-element list against an empty array gives an
    empty array; in place, the same product is refused. *)
Example multiply_one_by_none : multiply [0] [] = inr [].
Proof. reflexivity. Qed.

Example imultiply_one_by_none :
  imultiply [0] [] = inl (ValueError "non-broadcastable output operand").
Proof. reflexivity. Qed.

Example multiply_two_by_one : multiply [1; 1] (power_half [4]) = inr [2; 2].
Proof. reflexivity. Qed.

Example multiply_three_by_two :
  multiply [1; 1; 1] (power_half [4; 9])
  = inl (ValueError "operands could not be broadcast together").
Proof. reflexivity. Qed.

(** C2, at the input where it fails.  The caller passes the same array
    [[1]] as shape and as appearance weights.  The appearance model is
    handed [[6]], which is [1 * sqrt(4) * sqrt(9)], and not [[3]], which
    is [1 * sqrt(9)]: the in-place product of the shape weights has
    already overwritten the array. *)
Lemma same_array_scaled_twice :
  weights_content (toy_world {[ 0%nat := [1] ]}) (NdArray 0) = Some [1]
  /\ take 2 (log (instance toy_framework
                    (toy_aam (GlobalAAM ThinPlateSplines) [4] [9])
                    (Some (NdArray 0)) (Some (NdArray 0)) (-1)
                    (toy_world {[ 0%nat := [1] ]})).2)
     = [CallShapeInstance [2]; CallAppearanceInstance [6]]
  /\ scaled [1] [9] = [3].
Proof. repeat split; vm_compute; reflexivity. Qed.

(** C7, at the input where it fails.  The caller's array holds [[1]]
    before the call and [[2]] after it. *)
Lemma callers_array_is_overwritten :
  heap (toy_world {[ 0%nat := [1] ]}) !! 0%nat = Some [1]
  /\ heap (instance toy_framework
             (toy_aam (GlobalAAM ThinPlateSplines) [4] [9])
             (Some (NdArray 0)) None (-1)
             (toy_world {[ 0%nat := [1] ]})).2 !! 0%nat
     = Some [2].
Proof. split; vm_compute; reflexivity. Qed.



(** C4, as stated, fails.  A shape instance that is a mesh, with template
    landmarks that are a point cloud: the frame is built with
    [trilist=None], not with the triangle list of the mesh.  A shape
    instance that is a point cloud, with template landmarks that are a
    mesh: the frame is built with the triangle list of the landmarks,
    not with [None].  Landmarks of a subclass of [TriMesh], with a mesh
    as shape instance: the frame is built with [trilist=None]. *)
Lemma trilist_comes_from_the_landmarks :
  log (GlobalAAM__build_reference_frame toy_framework
         (toy_aam (GlobalAAM ThinPlateSplines) [4] [9])
         toy_mesh (PointCloud [(7, 7)]) (toy_world ∅)).2
  = [CallBuildReferenceFrame toy_mesh None]
  /\ [CallBuildReferenceFrame (Transform := ToyTransform) toy_mesh None]
     <> [CallBuildReferenceFrame toy_mesh (Some [(0, 1, 2)%nat])]
  /\ log (GlobalAAM__build_reference_frame toy_framework
            (toy_aam (GlobalAAM ThinPlateSplines) [4] [9])
            (PointCloud [(7, 7)]) toy_mesh (toy_world ∅)).2
     = [CallBuildReferenceFrame (PointCloud [(7, 7)])
          (Some [(0, 1, 2)%nat])]
  /\ [CallBuildReferenceFrame (Transform := ToyTransform)
        (PointCloud [(7, 7)]) (Some [(0, 1, 2)%nat])]
     <> [CallBuildReferenceFrame (PointCloud [(7, 7)]) None]
  /\ log (GlobalAAM__build_reference_frame toy_framework
            (toy_aam (GlobalAAM ThinPlateSplines) [4] [9])
            toy_mesh
            (ColouredTriMesh [(0, 0); (1, 0); (0, 1)] [(0, 1, 2)%nat] [5; 5; 5])
            (toy_world ∅)).2
     = [CallBuildReferenceFrame toy_mesh None].
Proof.
  repeat split; try (vm_compute; reflexivity); intros [=].
Qed.

(** C5 at an input: a [GlobalAAM] whose template landmarks are a mesh, a
    shape instance that is a point cloud, and an appearance instance
    that has landmarks of its own, which the result does not keep. *)
Lemma instance_transform_and_landmarks_witness :
  ((exists tr, cls toy_global_aam = GlobalAAM tr)
   \/ (exists ps, cls toy_global_aam = PatchAAM ps))
  /\ getitem (appearance_models toy_global_aam) (-1)
     = inr (toy_appearance_model [9])
  /\ landmarks (mean (toy_appearance_model [9])) !! "source" = Some toy_mesh
  /\ _build_reference_frame toy_framework toy_global_aam
       toy_shape_instance toy_mesh (toy_world ∅)
     = (inr toy_frame,
        logged (toy_world ∅)
          [CallBuildReferenceFrame toy_shape_instance (Some [(0, 1, 2)%nat])])
  /\ transform_of toy_global_aam = Some ThinPlateSplines
  /\ landmarks toy_frame !! "source" = Some toy_shape_instance
  /\ call_transform toy_framework ThinPlateSplines toy_shape_instance toy_mesh
     = inr (ThinPlateSplines, toy_shape_instance, toy_mesh)
  /\ warp_to_mask toy_framework toy_appearance_instance (mask toy_frame)
       (ThinPlateSplines, toy_shape_instance, toy_mesh)
     = inr toy_appearance_instance
  /\ exists image,
       _instance toy_framework toy_global_aam (-1)
         toy_shape_instance toy_appearance_instance (toy_world ∅)
       = (inr image,
          World ∅ (draws (toy_world ∅)) 0
            [CallBuildReferenceFrame toy_shape_instance
               (Some [(0, 1, 2)%nat]);
             CallTransform ThinPlateSplines toy_shape_instance toy_mesh;
             CallWarpToMask toy_appearance_instance (mask toy_frame)
               (ThinPlateSplines, toy_shape_instance, toy_mesh)])
       /\ landmarks image = landmarks toy_frame
       /\ pixels image = pixels toy_appearance_instance
       /\ mask image = mask toy_appearance_instance.
Proof.
  assert (Hcls : (exists tr, cls toy_global_aam = GlobalAAM tr)
                 \/ (exists ps, cls toy_global_aam = PatchAAM ps)).
  { left. exists ThinPlateSplines. reflexivity. }
  split; [exact Hcls |].
  repeat (split; [reflexivity |]).
  apply (instance_transform_and_landmarks toy_framework toy_global_aam (-1)
           toy_shape_instance toy_appearance_instance (toy_world ∅)
           (logged (toy_world ∅)
              [CallBuildReferenceFrame toy_shape_instance
                 (Some [(0, 1, 2)%nat])])
           (toy_appearance_model [9]) toy_mesh toy_shape_instance
           toy_frame toy_appearance_instance ThinPlateSplines
           (ThinPlateSplines, toy_shape_instance, toy_mesh));
    (exact Hcls || reflexivity).
Defined.

(** C6 at an input: a [LinearGlobalAAM] with one level. *)
Lemma linear_variants_do_not_synthesise_witness :
  ((exists t n, cls toy_linear_aam = LinearGlobalAAM t n)
   \/ (exists ps n, cls toy_linear_aam = LinearPatchAAM ps n))
  /\ instance toy_framework toy_linear_aam None None (-1) (toy_world ∅)
     = (inl (AttributeError "_instance"),
        logged (toy_world ∅) [CallShapeInstance [0]; CallAppearanceInstance [0]])
  /\ random_instance toy_framework toy_linear_aam (-1) (toy_world ∅)
     = (inl (AttributeError "_instance"),
        World ∅ (draws (toy_world ∅)) 2
              [CallShapeInstance [2]; CallAppearanceInstance [6]]).
Proof.
  assert (Hcls : (exists t n, cls toy_linear_aam = LinearGlobalAAM t n)
                 \/ (exists ps n, cls toy_linear_aam = LinearPatchAAM ps n)).
  { left. exists ThinPlateSplines, 68. reflexivity. }
  split; [exact Hcls |].
  destruct (linear_variants_do_not_synthesise toy_framework toy_linear_aam Hcls)
    as [_ [_ [_ [Hinstance Hrandom]]]].
  split.
  - apply (Hinstance (-1) (toy_world ∅) (toy_shape_model [4])
             (toy_appearance_model [9]) [0] [0]
             (PointCloud [(0, 0)])
             {| pixels := [0]; mask := [true];
                landmarks := {[ "source" := PointCloud [(7, 7)] ]} |});
      reflexivity.
  - apply (Hrandom (-1) (toy_world ∅) (toy_shape_model [4])
             (toy_appearance_model [9]) [2] [6]
             (PointCloud [(2, 2)])
             {| pixels := [6]; mask := [true];
                landmarks := {[ "source" := PointCloud [(7, 7)] ]} |});
      reflexivity.
Defined.

(** C8 at an input: a [PatchAAM] with two shape eigenvalues, 4 and 9,
    and one appearance eigenvalue, 16; the draws are 1, 2 and then 3. *)
Lemma random_instance_full_length_witness :
  getitem (shape_models (toy_aam (PatchAAM (16, 16)) [4; 9] [16])) 0
  = inr (toy_shape_model [4; 9])
  /\ getitem (appearance_models (toy_aam (PatchAAM (16, 16)) [4; 9] [16])) 0
     = inr (toy_appearance_model [16])
  /\ Nat.le (n_active_components (toy_shape_model [4; 9]))
            (length (eigenvalues (toy_shape_model [4; 9])))
  /\ Nat.le (n_active_components (toy_appearance_model [16]))
            (length (eigenvalues (toy_appearance_model [16])))
  /\ pca_instance (toy_shape_model [4; 9])
       (scaled (next_draws (toy_world ∅) 0 2) [4; 9])
     = inr (PointCloud [(2, 2); (6, 6)])
  /\ pca_instance (toy_appearance_model [16])
       (scaled (next_draws (toy_world ∅) 2 1) [16])
     = inr {| pixels := [12]; mask := [true];
              landmarks := {[ "source" := PointCloud [(7, 7)] ]} |}
  /\ scaled (next_draws (toy_world ∅) 0 2) [4; 9] = [2; 6]
  /\ random_instance toy_framework (toy_aam (PatchAAM (16, 16)) [4; 9] [16])
       0 (toy_world ∅)
     = _instance toy_framework (toy_aam (PatchAAM (16, 16)) [4; 9] [16]) 0
         (PointCloud [(2, 2); (6, 6)])
         {| pixels := [12]; mask := [true];
            landmarks := {[ "source" := PointCloud [(7, 7)] ]} |}
         (World ∅ (draws (toy_world ∅)) 3
                [CallShapeInstance [2; 6]; CallAppearanceInstance [12]])
  /\ instance toy_framework (toy_aam (PatchAAM (16, 16)) [4; 9] [16])
       (Some (PyList [1; 2])) (Some (PyList [3])) 0 (toy_world ∅)
     = _instance toy_framework (toy_aam (PatchAAM (16, 16)) [4; 9] [16]) 0
         (PointCloud [(2, 2); (6, 6)])
         {| pixels := [12]; mask := [true];
            landmarks := {[ "source" := PointCloud [(7, 7)] ]} |}
         (World ∅ (draws (toy_world ∅)) 0
                [CallShapeInstance [2; 6]; CallAppearanceInstance [12]]).
Proof.
  do 7 (split; [first [reflexivity | vm_compute; lia] |]).
  pose proof (random_instance_full_length toy_framework
                (toy_aam (PatchAAM (16, 16)) [4; 9] [16]) 0 (toy_world ∅)
                (toy_shape_model [4; 9]) (toy_appearance_model [16])
                (PointCloud [(2, 2); (6, 6)])
                {| pixels := [12]; mask := [true];
                   landmarks := {[ "source" := PointCloud [(7, 7)] ]} |}
                eq_refl eq_refl
                ltac:(vm_compute; lia) ltac:(vm_compute; lia)
                eq_refl eq_refl) as Hrun.
  cbv zeta in Hrun. destruct Hrun as [_ [_ [Hrandom Hinstance]]].
  split; [exact Hrandom | exact Hinstance].
Defined.

(** C9 at two inputs with one feature function per level: a [GlobalAAM],
    whose [transform] is wrapped, and a [PartsAAM], which has none. *)
Lemma serializable_dict_fields_witness :
  (scale_features (toy_aam_level_features (GlobalAAM ThinPlateSplines)) = false ->
   iterate (features (toy_aam_level_features (GlobalAAM ThinPlateSplines)))
   = inr [VCallable "aam.feature.igo"; VCallable "aam.feature.hog"])
  /\ (exists d,
         h5_dict_to_serializable_dict
           (toy_aam_level_features (GlobalAAM ThinPlateSplines)) = inr d
         /\ d !! "features"
            = Some (VList
                      [SerializableCallable (VCallable "aam.feature.igo")
                         ["aam.feature"];
                       SerializableCallable (VCallable "aam.feature.hog")
                         ["aam.feature"]])
         /\ d !! "transform"
            = Some (SerializableCallable (VCallable ThinPlateSplines)
                      ["menpo.transform"])
         /\ d !! "scales" = Some (VList [VFloat 2; VFloat 1]))
  /\ (exists d,
         h5_dict_to_serializable_dict
           (toy_aam_level_features (PartsAAM (8, 8))) = inr d
         /\ d !! "transform" = None
         /\ d !! "parts_shape" = Some (VTuple [VInt 8; VInt 8])).
Proof.
  split; [reflexivity |]. split.
  - destruct (serializable_dict_fields
                (toy_aam_level_features (GlobalAAM ThinPlateSplines))
                [VCallable "aam.feature.igo"; VCallable "aam.feature.hog"]
                (fun _ => eq_refl))
      as [d [Hd [_ [Hother [Hfeatures [Htransform _]]]]]].
    exists d. split; [exact Hd |]. split; [exact Hfeatures |].
    split; [exact Htransform |].
    rewrite Hother by discriminate. reflexivity.
  - destruct (serializable_dict_fields
                (toy_aam_level_features (PartsAAM (8, 8)))
                [VCallable "aam.feature.igo"; VCallable "aam.feature.hog"]
                (fun _ => eq_refl))
      as [d [Hd [_ [Hother [_ [Htransform _]]]]]].
    exists d. split; [exact Hd |]. split; [exact Htransform |].
    rewrite Hother by discriminate. reflexivity.
Defined.

(** * Further properties of the code *)

Section Levels.
Context {F : Type} `{Scalar F} {Transform : Type}.
Context (fw : @Framework F Transform).

Lemma getitem_outside {A} (l : list A) (level : Z) :
  out_of_range (length l) level -> getitem l level = inl IndexError.
Proof.
  unfold out_of_range, getitem. intros Hout.
  destruct (Z.ltb_spec level 0) as [Hneg | Hpos].
  - destruct (Z.ltb_spec (level + Z.of_nat (length l)) 0); cbn; [reflexivity |].
    lia.
  - destruct (Z.ltb_spec level 0); [lia |].
    destruct (Z.leb_spec (Z.of_nat (length l)) level); cbn; [reflexivity |].
    lia.
Qed.

Lemma getitem_negative {A} (l : list A) (level : Z) :
  - Z.of_nat (length l) <= level < 0 ->
  getitem l level = getitem l (level + Z.of_nat (length l)).
Proof.
  intros Hlevel. unfold getitem. cbv zeta.
  assert (Hneg : (level <? 0) = true) by (apply Z.ltb_lt; lia).
  assert (Hpos : (level + Z.of_nat (length l) <? 0) = false)
    by (apply Z.ltb_ge; lia).
  rewrite Hneg. cbv beta iota. now rewrite !Hpos.
Qed.

Lemma getitem_in_range {A} (l : list A) (level : Z) :
  ~ out_of_range (length l) level -> exists x, getitem l level = inr x.
Proof.
  unfold out_of_range, getitem. intros Hin.
  set (n := Z.of_nat (length l)) in *.
  set (j := if level <? 0 then level + n else level).
  assert (Hj : 0 <= j < n).
  { unfold j. destruct (Z.ltb_spec level 0); lia. }
  destruct (Z.ltb_spec j 0); [lia |].
  destruct (Z.leb_spec n j); [lia |]. cbn.
  destruct (lookup_lt_is_Some_2 l (Z.to_nat j)) as [x Hx]; [unfold n in *; lia |].
  rewrite Hx. eauto.
Qed.

Lemma getitem_error {A} (l : list A) (level : Z) (e : exn) :
  getitem l level = inl e -> e = IndexError.
Proof.
  unfold getitem.
  destruct ((_ <? 0) || (_ <=? _))%bool; [congruence |].
  destruct (l !! _); congruence.
Qed.

(** X1.  When [level] is out of range for [shape_models] or for
    [appearance_models], both [instance] and [random_instance] raise
    [IndexError] at once, whatever the weights are: nothing is logged,
    no array is written and no draw is taken from the random source. *)
Theorem level_out_of_range
    (self : AAM) (sw aw : option weights) (level : Z) (w : world) :
  out_of_range (length (shape_models self)) level
  \/ out_of_range (length (appearance_models self)) level ->
  instance fw self sw aw level w = (inl IndexError, w)
  /\ random_instance fw self level w = (inl IndexError, w).
Proof.
  intros Hout.
  assert (Hlookup :
            getitem (shape_models self) level = inl IndexError
            \/ (exists sm, getitem (shape_models self) level = inr sm)
               /\ getitem (appearance_models self) level = inl IndexError).
  { destruct Hout as [Hs | Ha].
    - left. now apply getitem_outside.
    - destruct (getitem (shape_models self) level) as [e | sm] eqn:Hsm.
      + left. now rewrite (getitem_error _ _ _ Hsm).
      + right. split; [eauto |]. now apply getitem_outside. }
  unfold instance, random_instance.
  destruct Hlookup as [Hs | [[sm Hs] Ha]].
  - now rewrite !(bind_fail _ _ _ _ _ (lift_fail _ _ w Hs)).
  - rewrite !(bind_ok _ _ _ _ _ (lift_ok _ _ w Hs)).
    now rewrite !(bind_fail _ _ _ _ _ (lift_fail _ _ w Ha)).
Qed.

Lemma bind_ext {A B} (m : @M F Transform A) (k k' : A -> M B) (w : world) :
  (forall a w', k a w' = k' a w') -> bind m k w = bind m k' w.
Proof.
  intros Hk. unfold bind. destruct (m w) as [[e | a] w']; [reflexivity |].
  apply Hk.
Qed.

Lemma _instance_same_model (self : AAM) (l1 l2 : Z) si ai (w : world) :
  getitem (appearance_models self) l1 = getitem (appearance_models self) l2 ->
  _instance fw self l1 si ai w = _instance fw self l2 si ai w.
Proof.
  intros Ha. unfold _instance, GlobalAAM__instance, PatchAAM__instance.
  destruct (cls self); now rewrite ?Ha.
Qed.

Lemma instance_same_models (self : AAM) (l1 l2 : Z) sw aw (w : world) :
  getitem (shape_models self) l1 = getitem (shape_models self) l2 ->
  getitem (appearance_models self) l1 = getitem (appearance_models self) l2 ->
  instance fw self sw aw l1 w = instance fw self sw aw l2 w.
Proof.
  intros Hs Ha. unfold instance. rewrite Hs, Ha.
  repeat (apply bind_ext; intros ? ?).
  now apply _instance_same_model.
Qed.

Lemma random_instance_same_models (self : AAM) (l1 l2 : Z) (w : world) :
  getitem (shape_models self) l1 = getitem (shape_models self) l2 ->
  getitem (appearance_models self) l1 = getitem (appearance_models self) l2 ->
  random_instance fw self l1 w = random_instance fw self l2 w.
Proof.
  intros Hs Ha. unfold random_instance. rewrite Hs, Ha.
  repeat (apply bind_ext; intros ? ?).
  now apply _instance_same_model.
Qed.

(** X2.  A negative level counts from the end: on a model with as many
    appearance models as shape models, [n] of each, a level [-n <= level
    < 0] gives the same run of [instance] and of [random_instance] as
    the level [level + n].  The default level, [-1], is the last one. *)
Theorem negative_level_counts_from_the_end
    (self : AAM) (sw aw : option weights) (level : Z) (w : world) :
  length (appearance_models self) = length (shape_models self) ->
  - Z.of_nat (length (shape_models self)) <= level < 0 ->
  instance fw self sw aw level w
  = instance fw self sw aw (level + Z.of_nat (length (shape_models self))) w
  /\ random_instance fw self level w
     = random_instance fw self
         (level + Z.of_nat (length (shape_models self))) w.
Proof.
  intros Hlen Hlevel.
  assert (Hs : getitem (shape_models self) level
               = getitem (shape_models self)
                   (level + Z.of_nat (length (shape_models self))))
    by now apply getitem_negative.
  assert (Ha : getitem (appearance_models self) level
               = getitem (appearance_models self)
                   (level + Z.of_nat (length (shape_models self)))).
  { rewrite <- Hlen. apply getitem_negative. now rewrite Hlen. }
  split.
  - now apply instance_same_models.
  - now apply random_instance_same_models.
Qed.

End Levels.

Section Runs.
Context {F : Type} `{Scalar F} {Transform : Type}.
Context (fw : @Framework F Transform).

Lemma synthesising_class_has_transform (self : @AAM F) :
  (exists tr, cls self = GlobalAAM tr) \/ (exists ps, cls self = PatchAAM ps) ->
  exists c, transform_of self = Some c.
Proof.
  intros [[tr Hcls] | [ps Hcls]]; unfold transform_of; rewrite Hcls; eauto.
Qed.

(** X3.  [GlobalAAM._instance] and [PatchAAM._instance] read the
    ['source'] landmarks twice.  When the mean appearance of the level
    has no ['source'] group, the call raises [KeyError] before any call
    to the framework.  When the reference frame that was built has no
    ['source'] group, the call raises [KeyError] after the frame is
    built: no transform is constructed and nothing is warped. *)
Theorem missing_source_landmarks
    (self : AAM) (level : Z) (am : PCAModel Image) :
  (exists tr, cls self = GlobalAAM tr) \/ (exists ps, cls self = PatchAAM ps) ->
  getitem (appearance_models self) level = inr am ->
  (landmarks (mean am) !! "source" = None ->
   forall si ai (w : world),
     _instance fw self level si ai w = (inl (KeyError "source"), w))
  /\ (forall lms si ai (w w1 : world) frame,
         landmarks (mean am) !! "source" = Some lms ->
         _build_reference_frame fw self si lms w = (inr frame, w1) ->
         landmarks frame !! "source" = None ->
         _instance fw self level si ai w = (inl (KeyError "source"), w1)).
Proof.
  intros Hcls Ham.
  destruct (synthesising_class_has_transform self Hcls) as [c Hc].
  split.
  - intros Hnone si ai w. unfold _instance.
    destruct Hcls as [[tr Hcls] | [ps Hcls]]; rewrite Hcls;
      unfold GlobalAAM__instance, PatchAAM__instance, bind, lift, source_lms,
        raise;
      now rewrite Ham, Hnone.
  - intros lms si ai w w1 frame Hlms Hframe Hnone. unfold _instance.
    destruct Hcls as [[tr Hcls] | [ps Hcls]]; rewrite Hcls;
      unfold GlobalAAM__instance, PatchAAM__instance, bind, lift, source_lms,
        getattr_transform, raise, ret;
      now rewrite Ham, Hlms, Hframe, Hc, Hnone.
Qed.

(** X4.  [PartsAAM] defines neither [_instance] nor
    [_build_reference_frame]: both lookups raise [AttributeError], and
    [instance] and [random_instance], which it inherits, never return an
    image. *)
Theorem parts_aam_does_not_synthesise (self : AAM) (ps : PatchShape) :
  cls self = PartsAAM ps ->
  (forall level si ai (w : world),
      _instance fw self level si ai w = (inl (AttributeError "_instance"), w))
  /\ (forall s lms (w : world),
         _build_reference_frame fw self s lms w
         = (inl (AttributeError "_build_reference_frame"), w))
  /\ (forall sw aw level (w : world),
         exists e w1, instance fw self sw aw level w = (inl e, w1))
  /\ (forall level (w : world),
         exists e w1, random_instance fw self level w = (inl e, w1)).
Proof.
  intros Hcls.
  assert (Hno : forall level si ai (w : world),
             _instance fw self level si ai w
             = (inl (AttributeError "_instance"), w)).
  { intros. unfold _instance. now rewrite Hcls. }
  split; [exact Hno |]. split; [| split].
  - intros. unfold _build_reference_frame. now rewrite Hcls.
  - intros sw aw level. unfold instance.
    repeat (apply bind_never_returns; intros ?). intros w'.
    rewrite Hno. eauto.
  - intros level. unfold random_instance.
    repeat (apply bind_never_returns; intros ?). intros w'.
    rewrite Hno. eauto.
Qed.

(** *** The calls of a run, by class *)

Ltac tc := typeclasses eauto.
Ltac any_lift := apply triple_lift_any; tc.
Ltac then_any tac := eapply triple_bind; [tc | tac | intros ? _].

Lemma log_grows_len (Q : @event F Transform -> Prop) (ws : weights) :
  triple (log_grows Q) (len ws) (fun _ => True).
Proof.
  unfold len. destruct ws.
  - apply triple_ret; [tc | exact I].
  - then_any ltac:(apply triple_deref; tc). apply triple_ret; [tc | exact I].
  - apply triple_ret; [tc | exact I].
Qed.

Lemma log_grows_imul (Q : @event F Transform -> Prop) (ws : weights)
    (rhs : list F) :
  triple (log_grows Q) (imul ws rhs) (fun _ => True).
Proof.
  unfold imul. destruct ws.
  - any_lift.
  - then_any ltac:(apply triple_deref; tc).
    then_any any_lift.
    then_any ltac:(apply log_grows_store).
    apply triple_ret; [tc | exact I].
  - apply triple_raise. tc.
Qed.

(** [instance] and [random_instance] make the calls of [_instance], after
    one call to each PCA model. *)
Lemma log_grows_sampling (Q : @event F Transform -> Prop) (self : AAM) :
  (forall v, Q (CallShapeInstance v)) ->
  (forall v, Q (CallAppearanceInstance v)) ->
  (forall level si ai,
      triple (log_grows Q) (_instance fw self level si ai) (fun _ => True)) ->
  (forall sw aw level,
      triple (log_grows Q) (instance fw self sw aw level) (fun _ => True))
  /\ (forall level,
         triple (log_grows Q) (random_instance fw self level) (fun _ => True)).
Proof.
  intros Hshape Happearance Hinstance.
  assert (Hcs : forall sm v,
             triple (log_grows Q) (call_shape_instance sm v) (fun _ => True)).
  { intros. unfold call_shape_instance.
    then_any ltac:(apply log_grows_emit; apply Hshape). any_lift. }
  assert (Hca : forall am v,
             triple (log_grows Q) (call_appearance_instance am v)
                    (fun _ => True)).
  { intros. unfold call_appearance_instance.
    then_any ltac:(apply log_grows_emit; apply Happearance). any_lift. }
  split.
  - intros sw aw level. unfold instance.
    then_any any_lift. then_any any_lift.
    then_any ltac:(apply log_grows_len).
    then_any ltac:(apply log_grows_imul).
    then_any ltac:(apply Hcs).
    then_any ltac:(apply log_grows_len).
    then_any ltac:(apply log_grows_imul).
    then_any ltac:(apply Hca).
    apply Hinstance.
  - intros level. unfold random_instance.
    then_any any_lift. then_any any_lift.
    then_any ltac:(eapply triple_weaken;
                   [apply log_grows_randn | intros ? _; exact I]).
    then_any any_lift.
    then_any ltac:(apply Hcs).
    then_any ltac:(eapply triple_weaken;
                   [apply log_grows_randn | intros ? _; exact I]).
    then_any any_lift.
    then_any ltac:(apply Hca).
    apply Hinstance.
Qed.

Lemma patch_aam_instance_calls (self : AAM) (ps : PatchShape) level si ai :
  cls self = PatchAAM ps ->
  triple (log_grows (patch_run_event ps)) (_instance fw self level si ai)
         (fun _ => True).
Proof.
  intros Hcls. unfold _instance. rewrite Hcls. unfold PatchAAM__instance.
  then_any any_lift.
  then_any ltac:(apply triple_source_lms; tc).
  then_any idtac.
  { unfold _build_reference_frame. rewrite Hcls.
    unfold PatchAAM__build_reference_frame, getattr_patch_shape.
    rewrite Hcls.
    eapply triple_bind with (P := fun x => x = ps);
      [tc | apply triple_ret; [tc | reflexivity] |].
    intros x ->.
    then_any ltac:(apply log_grows_emit; reflexivity). any_lift. }
  unfold getattr_transform, transform_of. rewrite Hcls.
  eapply triple_bind with (P := fun c => c = ThinPlateSplines);
    [tc | apply triple_ret; [tc | reflexivity] |].
  intros c ->.
  then_any ltac:(apply triple_source_lms; tc).
  then_any ltac:(apply log_grows_emit; reflexivity).
  then_any any_lift.
  then_any ltac:(apply log_grows_emit; exact I).
  then_any any_lift.
  apply triple_ret; [tc | exact I].
Qed.

Lemma global_aam_instance_calls (self : AAM) (tr : Callable) level si ai :
  cls self = GlobalAAM tr ->
  triple (log_grows (global_run_event tr)) (_instance fw self level si ai)
         (fun _ => True).
Proof.
  intros Hcls. unfold _instance. rewrite Hcls. unfold GlobalAAM__instance.
  then_any any_lift.
  then_any ltac:(apply triple_source_lms; tc).
  then_any idtac.
  { unfold _build_reference_frame. rewrite Hcls.
    unfold GlobalAAM__build_reference_frame.
    then_any ltac:(apply log_grows_emit; exact I). any_lift. }
  unfold getattr_transform, transform_of. rewrite Hcls.
  eapply triple_bind with (P := fun c => c = tr);
    [tc | apply triple_ret; [tc | reflexivity] |].
  intros c ->.
  then_any ltac:(apply triple_source_lms; tc).
  then_any ltac:(apply log_grows_emit; reflexivity).
  then_any any_lift.
  then_any ltac:(apply log_grows_emit; exact I).
  then_any any_lift.
  apply triple_ret; [tc | exact I].
Qed.

(** X5.  A [PatchAAM] never calls [build_reference_frame]: in every run
    of [instance] and of [random_instance], whatever the template
    landmarks are, each frame is built by [build_patch_reference_frame]
    with the patch shape of the object, and each transform is built by
    [ThinPlateSplines]. *)
Theorem patch_aam_calls (self : AAM) (ps : PatchShape) :
  cls self = PatchAAM ps ->
  (forall sw aw level (w : world),
      log_grows (patch_run_event ps) w (instance fw self sw aw level w).2)
  /\ (forall level (w : world),
         log_grows (patch_run_event ps) w (random_instance fw self level w).2).
Proof.
  intros Hcls.
  destruct (log_grows_sampling (patch_run_event ps) self) as [Hi Hr].
  - intros v. exact I.
  - intros v. exact I.
  - intros. now apply patch_aam_instance_calls.
  - split.
    + intros sw aw level w. apply (Hi sw aw level w).
    + intros level w. apply (Hr level w).
Qed.

(** X6.  A [GlobalAAM] never calls [build_patch_reference_frame]: in
    every run of [instance] and of [random_instance] each transform is
    built by the transform that the object was constructed with. *)
Theorem global_aam_calls (self : AAM) (tr : Callable) :
  cls self = GlobalAAM tr ->
  (forall sw aw level (w : world),
      log_grows (global_run_event tr) w (instance fw self sw aw level w).2)
  /\ (forall level (w : world),
         log_grows (global_run_event tr) w (random_instance fw self level w).2).
Proof.
  intros Hcls.
  destruct (log_grows_sampling (global_run_event tr) self) as [Hi Hr].
  - intros v. exact I.
  - intros v. exact I.
  - intros. now apply global_aam_instance_calls.
  - split.
    + intros sw aw level w. apply (Hi sw aw level w).
    + intros level w. apply (Hr level w).
Qed.

(** *** A whole run *)

Lemma logged_logged (w : @world F Transform) (evs evs' : list event) :
  logged (logged w evs) evs' = logged w (evs ++ evs').
Proof. unfold logged; cbn. now rewrite <- app_assoc. Qed.

(** X7.  A whole run of [instance] on a [GlobalAAM], with lists for the
    weights that are no longer than the eigenvalues, when every call to
    the framework succeeds.  The calls are, in this order: the shape
    model with the scaled shape weights, the appearance model with the
    scaled appearance weights, [build_reference_frame] with the shape
    instance and the triangle list of the template landmarks, the
    transform with the landmarks of the frame and of the template, and
    [warp_to_mask] on the appearance instance.  The result is the warped
    image with the landmarks of the frame; the store and the random
    source are as before. *)
Theorem global_instance_run
    (self : AAM) (tr : Callable) (level : Z) (w : world)
    (sm : PCAModel Shape) (am : PCAModel Image) (ls la : list F)
    (si lms frame_lms : Shape) (ai frame warped : Image) (t : Transform) :
  cls self = GlobalAAM tr ->
  getitem (shape_models self) level = inr sm ->
  getitem (appearance_models self) level = inr am ->
  (length ls <= length (eigenvalues sm))%nat ->
  (length la <= length (eigenvalues am))%nat ->
  pca_instance sm (scaled ls (eigenvalues sm)) = inr si ->
  pca_instance am (scaled la (eigenvalues am)) = inr ai ->
  landmarks (mean am) !! "source" = Some lms ->
  build_reference_frame fw si
    (match lms with TriMesh _ trilist => Some trilist | _ => None end)
  = inr frame ->
  landmarks frame !! "source" = Some frame_lms ->
  call_transform fw tr frame_lms lms = inr t ->
  warp_to_mask fw ai (mask frame) t = inr warped ->
  instance fw self (Some (PyList ls)) (Some (PyList la)) level w
  = (inr (set_landmarks warped (landmarks frame)),
     logged w
       [CallShapeInstance (scaled ls (eigenvalues sm));
        CallAppearanceInstance (scaled la (eigenvalues am));
        CallBuildReferenceFrame si
          (match lms with TriMesh _ trilist => Some trilist | _ => None end);
        CallTransform tr frame_lms lms;
        CallWarpToMask ai (mask frame) t]).
Proof.
  intros Hcls Hsm Ham Hls Hla Hsi Hai Hlms Hframe Hflms Ht Hwarp.
  rewrite (instance_lists_run fw self level w sm am ls la _ _ si ai Hsm Ham
             (multiply_within ls _ Hls) Hsi (multiply_within la _ Hla) Hai).
  unfold _instance. rewrite Hcls.
  set (w0 := logged w [CallShapeInstance (scaled ls (eigenvalues sm));
                       CallAppearanceInstance (scaled la (eigenvalues am))]).
  rewrite (instance_body fw self level si ai (GlobalAAM__instance fw) w0
             (logged w0 [CallBuildReferenceFrame si
                           (match lms with
                            | TriMesh _ trilist => Some trilist
                            | _ => None
                            end)])
             am lms frame_lms frame warped tr t); try assumption.
  - unfold w0, logged; cbn. now rewrite <- !app_assoc.
  - now left.
  - unfold _build_reference_frame. rewrite Hcls.
    unfold GlobalAAM__build_reference_frame, bind, emit, lift. cbn.
    rewrite Hframe. reflexivity.
  - unfold transform_of. now rewrite Hcls.
Qed.

(** X8.  The same run on a [PatchAAM]: the frame is built by
    [build_patch_reference_frame] with the patch shape of the object,
    and the transform by [ThinPlateSplines]. *)
Theorem patch_instance_run
    (self : AAM) (ps : PatchShape) (level : Z) (w : world)
    (sm : PCAModel Shape) (am : PCAModel Image) (ls la : list F)
    (si lms frame_lms : Shape) (ai frame warped : Image) (t : Transform) :
  cls self = PatchAAM ps ->
  getitem (shape_models self) level = inr sm ->
  getitem (appearance_models self) level = inr am ->
  (length ls <= length (eigenvalues sm))%nat ->
  (length la <= length (eigenvalues am))%nat ->
  pca_instance sm (scaled ls (eigenvalues sm)) = inr si ->
  pca_instance am (scaled la (eigenvalues am)) = inr ai ->
  landmarks (mean am) !! "source" = Some lms ->
  build_patch_reference_frame fw si ps = inr frame ->
  landmarks frame !! "source" = Some frame_lms ->
  call_transform fw ThinPlateSplines frame_lms lms = inr t ->
  warp_to_mask fw ai (mask frame) t = inr warped ->
  instance fw self (Some (PyList ls)) (Some (PyList la)) level w
  = (inr (set_landmarks warped (landmarks frame)),
     logged w
       [CallShapeInstance (scaled ls (eigenvalues sm));
        CallAppearanceInstance (scaled la (eigenvalues am));
        CallBuildPatchReferenceFrame si ps;
        CallTransform ThinPlateSplines frame_lms lms;
        CallWarpToMask ai (mask frame) t]).
Proof.
  intros Hcls Hsm Ham Hls Hla Hsi Hai Hlms Hframe Hflms Ht Hwarp.
  rewrite (instance_lists_run fw self level w sm am ls la _ _ si ai Hsm Ham
             (multiply_within ls _ Hls) Hsi (multiply_within la _ Hla) Hai).
  unfold _instance. rewrite Hcls.
  set (w0 := logged w [CallShapeInstance (scaled ls (eigenvalues sm));
                       CallAppearanceInstance (scaled la (eigenvalues am))]).
  rewrite (instance_body fw self level si ai (PatchAAM__instance fw) w0
             (logged w0 [CallBuildPatchReferenceFrame si ps])
             am lms frame_lms frame warped ThinPlateSplines t);
    try assumption.
  - unfold w0, logged; cbn. now rewrite <- !app_assoc.
  - now right.
  - unfold _build_reference_frame. rewrite Hcls.
    unfold PatchAAM__build_reference_frame, getattr_patch_shape.
    rewrite Hcls. unfold bind, ret, emit, lift. cbn.
    rewrite Hframe. reflexivity.
  - unfold transform_of. now rewrite Hcls.
Qed.

(** *** Errors of the PCA models *)

(** X9.  An error of a PCA model ends the call with that error.  When
    the shape model fails, the appearance weights are not scaled and the
    appearance model is not called; when the appearance model fails, no
    reference frame is built.  In both cases the call to the failing
    model is the last entry of the log. *)
Theorem pca_errors_propagate
    (self : AAM) (sw : weights) (level : Z) (w w1 : world)
    (sm : PCAModel Shape) (am : PCAModel Image) (ls vs : list F) :
  getitem (shape_models self) level = inr sm ->
  getitem (appearance_models self) level = inr am ->
  weights_content w sw = Some ls ->
  imul sw (power_half (take (length ls) (eigenvalues sm))) w = (inr vs, w1) ->
  (forall e aw,
      pca_instance sm vs = inl e ->
      instance fw self (Some sw) aw level w
      = (inl e, logged w1 [CallShapeInstance vs]))
  /\ (forall si aw la va w2 e,
         pca_instance sm vs = inr si ->
         weights_content (logged w1 [CallShapeInstance vs]) aw = Some la ->
         imul aw (power_half (take (length la) (eigenvalues am)))
              (logged w1 [CallShapeInstance vs]) = (inr va, w2) ->
         pca_instance am va = inl e ->
         instance fw self (Some sw) (Some aw) level w
         = (inl e, logged w2 [CallAppearanceInstance va])).
Proof.
  intros Hsm Ham Hls Hs. split.
  - intros e aw He. unfold instance.
    rewrite (bind_ok _ _ _ _ _ (lift_ok _ _ w Hsm)).
    rewrite (bind_ok _ _ _ _ _ (lift_ok _ _ w Ham)).
    rewrite (bind_ok _ _ _ _ _ (len_content _ _ _ Hls)).
    rewrite (bind_ok _ _ _ _ _ Hs).
    apply bind_fail.
    unfold call_shape_instance, bind, emit, lift. cbn. now rewrite He.
  - intros si aw la va w2 e Hsi Hla Ha He.
    rewrite (instance_after_appearance_scaling fw self sw aw level w w1 w2
               sm am ls vs la va si Hsm Ham Hls Hs Hsi Hla Ha).
    apply bind_fail. now apply lift_fail.
Qed.

(** X10.  With lists for both weight vectors, each no longer than the
    eigenvalues of its model, and for every class: the shape model is
    handed a vector of the length of the shape weights, not padded to
    the number of eigenvalues, whose entry [i] is [w_i * sqrt(e_i)];
    when the shape model returns, the appearance model is handed the
    appearance weights scaled in the same way. *)
Theorem list_weights_are_scaled
    (self : AAM) (ls la : list F) (level : Z) (w : world)
    (sm : PCAModel Shape) (am : PCAModel Image) (si : Shape) :
  getitem (shape_models self) level = inr sm ->
  getitem (appearance_models self) level = inr am ->
  (length ls <= length (eigenvalues sm))%nat ->
  (length la <= length (eigenvalues am))%nat ->
  pca_instance sm (scaled ls (eigenvalues sm)) = inr si ->
  (exists evs,
      log (instance fw self (Some (PyList ls)) (Some (PyList la)) level w).2
      = log w ++ CallShapeInstance (scaled ls (eigenvalues sm))
          :: CallAppearanceInstance (scaled la (eigenvalues am)) :: evs)
  /\ length (scaled ls (eigenvalues sm)) = length ls
  /\ length (scaled la (eigenvalues am)) = length la
  /\ (forall i x e, ls !! i = Some x -> eigenvalues sm !! i = Some e ->
                    scaled ls (eigenvalues sm) !! i = Some (fmul x (fsqrt e)))
  /\ (forall i x e, la !! i = Some x -> eigenvalues am !! i = Some e ->
                    scaled la (eigenvalues am) !! i = Some (fmul x (fsqrt e))).
Proof.
  intros Hsm Ham Hls Hla Hsi.
  split; [| split; [| split; [| split]]].
  - destruct (instance_hands_scaled_appearance_weights fw self
                (PyList ls) (PyList la) level w w sm am ls
                (scaled ls (eigenvalues sm)) la si Hsm Ham eq_refl)
      as [evs Hevs]; try assumption; try reflexivity.
    + rewrite imul_list. now rewrite multiply_within.
    + eauto.
  - now apply length_scaled.
  - now apply length_scaled.
  - intros i x e. apply scaled_entry.
  - intros i x e. apply scaled_entry.
Qed.

End Runs.

Section Resources.
Context {F : Type} `{Scalar F} {Transform : Type}.
Context (fw : @Framework F Transform).

(** *** Computations that respect a relation on worlds *)

Ltac tc := typeclasses eauto.
Ltac any_lift := apply triple_lift_any; tc.
Ltac then_any tac := eapply triple_bind; [tc | tac | intros ? _].

Section Respect.
Context (R : relation (@world F Transform)).
Context `{!Reflexive R} `{!Transitive R}.
Context (Hemit : forall ev : event, triple R (emit ev) (fun _ => True)).

Lemma respect_framework_call (ev : @event F Transform) :
  match ev with
  | CallShapeInstance _ | CallAppearanceInstance _ => True
  | _ => triple R (emit ev) (fun _ => True)
  end.
Proof. destruct ev; trivial; apply Hemit. Qed.

Lemma respect__instance (self : AAM) level si ai :
  triple R (_instance fw self level si ai) (fun _ => True).
Proof. apply triple__instance; [tc | tc | apply respect_framework_call]. Qed.

Lemma respect_call_shape_instance sm v :
  triple R (call_shape_instance sm v) (fun _ => True).
Proof. unfold call_shape_instance. then_any ltac:(apply Hemit). any_lift. Qed.

Lemma respect_call_appearance_instance am v :
  triple R (call_appearance_instance am v) (fun _ => True).
Proof.
  unfold call_appearance_instance. then_any ltac:(apply Hemit). any_lift.
Qed.

Lemma respect_len (ws : weights) : triple R (len ws) (fun _ => True).
Proof.
  unfold len. destruct ws.
  - apply triple_ret; [tc | exact I].
  - then_any ltac:(apply triple_deref; tc). apply triple_ret; [tc | exact I].
  - apply triple_ret; [tc | exact I].
Qed.


Lemma respect_imul (ws : weights) (rhs : list F) :
  (forall a l, triple R (store a l) (fun _ => True)) ->
  triple R (imul ws rhs) (fun _ => True).
Proof.
  intros Hstore. unfold imul. destruct ws.
  - any_lift.
  - then_any ltac:(apply triple_deref; tc).
    then_any any_lift.
    then_any ltac:(apply Hstore).
    apply triple_ret; [tc | exact I].
  - apply triple_raise. tc.
Qed.

(** What [instance] does once the shape weights are scaled. *)
Lemma respect_after_shape_scaling (self : AAM) sm am (aw : weights) level vs :
  (forall rhs, triple R (imul aw rhs) (fun _ => True)) ->
  triple R
    (bind (call_shape_instance sm vs) (fun shape_instance =>
     bind (len aw) (fun n =>
     bind (imul aw (power_half (take n (eigenvalues am)))) (fun va =>
     bind (call_appearance_instance am va) (fun appearance_instance =>
     _instance fw self level shape_instance appearance_instance)))))
    (fun _ => True).
Proof.
  intros Himul.
  then_any ltac:(apply respect_call_shape_instance).
  then_any ltac:(apply respect_len).
  then_any ltac:(apply Himul).
  then_any ltac:(apply respect_call_appearance_instance).
  apply respect__instance.
Qed.

Lemma respect_instance (self : AAM) (sw aw : option weights) level :
  (forall ws rhs, triple R (imul ws rhs) (fun _ => True)) ->
  triple R (instance fw self sw aw level) (fun _ => True).
Proof.
  intros Himul. unfold instance.
  then_any any_lift. then_any any_lift.
  then_any ltac:(apply respect_len).
  then_any ltac:(apply Himul).
  apply respect_after_shape_scaling. intros rhs. apply Himul.
Qed.
End Respect.

(** *** The random source *)

#[export] Instance same_random_source_refl :
  Reflexive (@same_random_source F Transform).
Proof. intros w. now split. Qed.

#[export] Instance same_random_source_trans :
  Transitive (@same_random_source F Transform).
Proof.
  intros w1 w2 w3 [Hd1 Hc1] [Hd2 Hc2]. unfold same_random_source.
  split; congruence.
Qed.

Lemma same_random_source_emit (ev : @event F Transform) :
  triple same_random_source (emit ev) (fun _ => True).
Proof. intros w; split; [now split | trivial]. Qed.

Lemma same_random_source_store (a : nat) (l : list F) :
  triple (@same_random_source F Transform) (store a l) (fun _ => True).
Proof. intros w; split; [now split | trivial]. Qed.

(** X11.  [instance] takes nothing from the random source: after the
    call, whatever its arguments and however it ends, the source has
    the same draws to come and stands at the same place. *)
Theorem instance_takes_no_draw
    (self : AAM) (sw aw : option weights) (level : Z) (w : world) :
  draws (instance fw self sw aw level w).2 = draws w
  /\ cursor (instance fw self sw aw level w).2 = cursor w.
Proof.
  assert (Ht : triple same_random_source (instance fw self sw aw level)
                 (fun _ => True)).
  { apply respect_instance; try tc.
    - apply same_random_source_emit.
    - intros ws rhs. apply respect_imul; try tc.
      apply same_random_source_store. }
  apply (Ht w).
Qed.

(** X12.  [random_instance] draws for the shape model first and, once
    the shape model has returned its instance, for the appearance model:
    after the call the random source has moved on by the number of
    active components of the two models, however the rest of the call
    ends, so that a second call works with the draws that follow. *)
Theorem random_instance_advances_cursor
    (self : AAM) (level : Z) (w : world)
    (sm : PCAModel Shape) (am : PCAModel Image) (vs : list F) (si : Shape) :
  getitem (shape_models self) level = inr sm ->
  getitem (appearance_models self) level = inr am ->
  multiply (next_draws w 0 (n_active_components sm))
           (power_half (take (n_active_components sm) (eigenvalues sm)))
  = inr vs ->
  pca_instance sm vs = inr si ->
  cursor (random_instance fw self level w).2
  = (cursor w + n_active_components sm + n_active_components am)%nat
  /\ draws (random_instance fw self level w).2 = draws w.
Proof.
  intros Hsm Ham Hvs Hsi. rewrite next_draws_0 in Hvs.
  enough (Hs : same_random_source
                 (World (heap w) (draws w)
                        (cursor w + n_active_components sm
                         + n_active_components am)
                        (log w ++ [CallShapeInstance vs]))
                 (random_instance fw self level w).2)
    by (destruct Hs as [Hd Hc]; split; [exact Hc | exact Hd]).
  unfold random_instance.
  rewrite (bind_ok _ _ _ _ _ (lift_ok _ _ w Hsm)).
  rewrite (bind_ok _ _ _ _ _ (lift_ok _ _ w Ham)).
  unfold bind at 1, randn at 1.
  rewrite (bind_ok _ _ _ _ _ (lift_ok _ _ _ Hvs)).
  rewrite (bind_ok _ _ _ _ _ (call_shape_instance_ok _ _ _ _ Hsi)).
  unfold bind at 1, randn at 1. cbn [draws cursor logged heap log].
  match goal with
  | |- same_random_source _ (?m ?w0).2 =>
      assert (Ht : triple same_random_source m (fun _ => True))
  end.
  { then_any any_lift.
    then_any ltac:(apply respect_call_appearance_instance; try tc;
                   apply same_random_source_emit).
    apply respect__instance; try tc. apply same_random_source_emit. }
  match goal with
  | |- same_random_source _ (?m ?w0).2 => exact (proj1 (Ht w0))
  end.
Qed.

(** *** The store *)


(** X13.  Without an array among its arguments, [instance] writes to no
    array and creates none in the caller's store: this holds for lists,
    for omitted weights and for [random_instance], however the call
    ends. *)
Theorem no_array_written_without_array_arguments
    (self : AAM) (level : Z) (w : world) :
  (forall ls la,
      heap (instance fw self (Some (PyList ls)) (Some (PyList la)) level w).2
      = heap w)
  /\ (forall ls,
         heap (instance fw self (Some (PyList ls)) None level w).2 = heap w)
  /\ (forall la,
         heap (instance fw self None (Some (PyList la)) level w).2 = heap w)
  /\ heap (instance fw self None None level w).2 = heap w
  /\ heap (random_instance fw self level w).2 = heap w.
Proof.
  split; [| split; [| split; [| split]]].
  - intros ls la. apply instance_lists_keep_heap.
  - intros ls. apply (instance_lists_keep_heap fw self ls [fzero]).
  - intros la. apply (instance_lists_keep_heap fw self [fzero] la).
  - apply (instance_lists_keep_heap fw self [fzero] [fzero]).
  - apply random_instance_keeps_heap.
Qed.




End Resources.

Section Adapter.
Context {F : Type}.

(** X16.  When the scale-features flag is not set, the adapter iterates
    over [features]: if [features] is not iterable, a single callable
    for instance, the adapter raises the error of the iteration and
    returns no dictionary, for every class. *)
Theorem adapter_needs_iterable_features (self : @AAM F) (e : exn) :
  scale_features self = false ->
  iterate (features self) = inl e ->
  h5_dict_to_serializable_dict self = inl e.
Proof.
  intros Hflag Hiter.
  pose proof (dict_features self) as Hf.
  pose proof (dict_transform self) as Ht.
  unfold h5_dict_to_serializable_dict.
  destruct (transform_of self) as [t |] eqn:Htr.
  - assert (Hcls : match cls self with
                   | PartsAAM _ => PartsAAM_h5_dict_to_serializable_dict self
                   | _ => AAM_h5_dict_to_serializable_dict self
                   end = AAM_h5_dict_to_serializable_dict self).
    { unfold transform_of in Htr. now destruct (cls self). }
    rewrite Hcls. unfold AAM_h5_dict_to_serializable_dict.
    rewrite (pop_found _ _ _ Ht). cbn.
    erewrite pop_found
      by (rewrite lookup_insert_ne, lookup_delete_ne by done; exact Hf).
    now rewrite Hflag, Hiter.
  - assert (Hcls : exists ps, cls self = PartsAAM ps).
    { unfold transform_of in Htr. destruct (cls self); try discriminate. eauto. }
    destruct Hcls as [ps Hcls]. rewrite Hcls.
    unfold PartsAAM_h5_dict_to_serializable_dict.
    rewrite (pop_found _ _ _ Hf).
    now rewrite Hflag, Hiter.
Qed.

End Adapter.

(** * Further examples *)

(** X1 at an input: level 1 on a model with one level. *)
Lemma level_out_of_range_witness :
  (out_of_range (length (shape_models toy_global_aam)) 1
   \/ out_of_range (length (appearance_models toy_global_aam)) 1)
  /\ instance toy_framework toy_global_aam (Some (PyList [1])) None 1
       (toy_world ∅)
     = (inl IndexError, toy_world ∅)
  /\ random_instance toy_framework toy_global_aam 1 (toy_world ∅)
     = (inl IndexError, toy_world ∅).
Proof.
  assert (Hout : out_of_range (length (shape_models toy_global_aam)) 1
                 \/ out_of_range (length (appearance_models toy_global_aam)) 1).
  { left. right. simpl. lia. }
  split; [exact Hout |].
  apply (level_out_of_range toy_framework toy_global_aam
           (Some (PyList [1])) None 1 (toy_world ∅) Hout).
Defined.

(** X2 at an input: level [-1] on a model with two levels is level 1. *)
Lemma negative_level_counts_from_the_end_witness :
  length (appearance_models (toy_aam_level_features (GlobalAAM ThinPlateSplines)))
  = length (shape_models (toy_aam_level_features (GlobalAAM ThinPlateSplines)))
  /\ (- Z.of_nat (length (shape_models
                            (toy_aam_level_features
                               (GlobalAAM ThinPlateSplines)))) <= -1 < 0)
  /\ instance toy_framework
       (toy_aam_level_features (GlobalAAM ThinPlateSplines))
       (Some (PyList [1; 1])) None (-1) (toy_world ∅)
     = instance toy_framework
         (toy_aam_level_features (GlobalAAM ThinPlateSplines))
         (Some (PyList [1; 1])) None 1 (toy_world ∅)
  /\ random_instance toy_framework
       (toy_aam_level_features (GlobalAAM ThinPlateSplines)) (-1) (toy_world ∅)
     = random_instance toy_framework
         (toy_aam_level_features (GlobalAAM ThinPlateSplines)) 1 (toy_world ∅).
Proof.
  assert (Hlevel : - Z.of_nat (length (shape_models
                                         (toy_aam_level_features
                                            (GlobalAAM ThinPlateSplines))))
                   <= -1 < 0) by (simpl; lia).
  split; [reflexivity |]. split; [exact Hlevel |].
  apply (negative_level_counts_from_the_end toy_framework
           (toy_aam_level_features (GlobalAAM ThinPlateSplines))
           (Some (PyList [1; 1])) None (-1) (toy_world ∅) eq_refl Hlevel).
Defined.

(** X3 at two inputs: a template without landmarks, and a framework
    whose frames have no landmarks. *)
Lemma missing_source_landmarks_witness :
  ((exists tr,
       cls (toy_aam_of (GlobalAAM ThinPlateSplines) [toy_shape_model [4]]
              [bare_appearance_model [9]]) = GlobalAAM tr)
   \/ (exists ps,
          cls (toy_aam_of (GlobalAAM ThinPlateSplines) [toy_shape_model [4]]
                 [bare_appearance_model [9]]) = PatchAAM ps))
  /\ landmarks (mean (bare_appearance_model [9])) !! "source" = None
  /\ _instance toy_framework
       (toy_aam_of (GlobalAAM ThinPlateSplines) [toy_shape_model [4]]
          [bare_appearance_model [9]])
       (-1) toy_shape_instance toy_appearance_instance (toy_world ∅)
     = (inl (KeyError "source"), toy_world ∅)
  /\ _build_reference_frame bare_framework toy_global_aam
       toy_shape_instance toy_mesh (toy_world ∅)
     = (inr {| pixels := []; mask := [true]; landmarks := ∅ |},
        logged (toy_world ∅)
          [CallBuildReferenceFrame toy_shape_instance (Some [(0, 1, 2)%nat])])
  /\ _instance bare_framework toy_global_aam (-1)
       toy_shape_instance toy_appearance_instance (toy_world ∅)
     = (inl (KeyError "source"),
        logged (toy_world ∅)
          [CallBuildReferenceFrame toy_shape_instance (Some [(0, 1, 2)%nat])]).
Proof.
  assert (Hcls : forall sms ams,
             (exists tr,
                 cls (toy_aam_of (GlobalAAM ThinPlateSplines) sms ams)
                 = GlobalAAM tr)
             \/ (exists ps,
                    cls (toy_aam_of (GlobalAAM ThinPlateSplines) sms ams)
                    = PatchAAM ps)).
  { intros. left. exists ThinPlateSplines. reflexivity. }
  split; [apply Hcls |]. split; [reflexivity |]. split; [| split].
  - apply (proj1 (missing_source_landmarks toy_framework
                    (toy_aam_of (GlobalAAM ThinPlateSplines)
                       [toy_shape_model [4]] [bare_appearance_model [9]])
                    (-1) (bare_appearance_model [9]) (Hcls _ _) eq_refl)).
    reflexivity.
  - reflexivity.
  - assert (Hglobal : (exists tr, cls toy_global_aam = GlobalAAM tr)
                      \/ (exists ps, cls toy_global_aam = PatchAAM ps)).
    { left. exists ThinPlateSplines. reflexivity. }
    apply (proj2 (missing_source_landmarks bare_framework toy_global_aam
                    (-1) (toy_appearance_model [9]) Hglobal eq_refl)
             toy_mesh toy_shape_instance toy_appearance_instance
             (toy_world ∅) _
             {| pixels := []; mask := [true]; landmarks := ∅ |});
      reflexivity.
Defined.

(** X4 at an input: a [PartsAAM] with one level. *)
Lemma parts_aam_does_not_synthesise_witness :
  cls (toy_aam (PartsAAM (8, 8)) [4] [9]) = PartsAAM (8, 8)
  /\ _instance toy_framework (toy_aam (PartsAAM (8, 8)) [4] [9]) (-1)
       toy_shape_instance toy_appearance_instance (toy_world ∅)
     = (inl (AttributeError "_instance"), toy_world ∅)
  /\ (exists e w1,
         instance toy_framework (toy_aam (PartsAAM (8, 8)) [4] [9])
           None None (-1) (toy_world ∅) = (inl e, w1))
  /\ (exists e w1,
         random_instance toy_framework (toy_aam (PartsAAM (8, 8)) [4] [9])
           (-1) (toy_world ∅) = (inl e, w1)).
Proof.
  split; [reflexivity |].
  destruct (parts_aam_does_not_synthesise toy_framework
              (toy_aam (PartsAAM (8, 8)) [4] [9]) (8, 8) eq_refl)
    as [Hinstance [_ [Hi Hr]]].
  split; [apply Hinstance |]. split; [apply Hi | apply Hr].
Defined.

(** X5 at an input: a [PatchAAM] with patch shape (16, 16). *)
Lemma patch_aam_calls_witness :
  cls (toy_aam (PatchAAM (16, 16)) [4] [9]) = PatchAAM (16, 16)
  /\ log_grows (patch_run_event (16, 16)) (toy_world ∅)
       (instance toy_framework (toy_aam (PatchAAM (16, 16)) [4] [9])
          (Some (PyList [1])) None (-1) (toy_world ∅)).2
  /\ log_grows (patch_run_event (16, 16)) (toy_world ∅)
       (random_instance toy_framework (toy_aam (PatchAAM (16, 16)) [4] [9])
          (-1) (toy_world ∅)).2.
Proof.
  split; [reflexivity |].
  destruct (patch_aam_calls toy_framework
              (toy_aam (PatchAAM (16, 16)) [4] [9]) (16, 16) eq_refl)
    as [Hi Hr].
  split; [apply Hi | apply Hr].
Defined.

(** X6 at an input: a [GlobalAAM] built with [ThinPlateSplines]. *)
Lemma global_aam_calls_witness :
  cls toy_global_aam = GlobalAAM ThinPlateSplines
  /\ log_grows (global_run_event ThinPlateSplines) (toy_world ∅)
       (instance toy_framework toy_global_aam
          (Some (PyList [1])) None (-1) (toy_world ∅)).2
  /\ log_grows (global_run_event ThinPlateSplines) (toy_world ∅)
       (random_instance toy_framework toy_global_aam (-1) (toy_world ∅)).2.
Proof.
  split; [reflexivity |].
  destruct (global_aam_calls toy_framework toy_global_aam ThinPlateSplines
              eq_refl) as [Hi Hr].
  split; [apply Hi | apply Hr].
Defined.

(** X7 at an input: shape weight 1 with eigenvalue 4, appearance weight
    1 with eigenvalue 9, template landmarks that are a mesh. *)
Lemma global_instance_run_witness :
  cls toy_global_aam = GlobalAAM ThinPlateSplines
  /\ getitem (shape_models toy_global_aam) (-1) = inr (toy_shape_model [4])
  /\ getitem (appearance_models toy_global_aam) (-1)
     = inr (toy_appearance_model [9])
  /\ pca_instance (toy_shape_model [4]) (scaled [1] [4]) = inr toy_shape_instance
  /\ pca_instance (toy_appearance_model [9]) (scaled [1] [9])
     = inr toy_appearance_instance
  /\ landmarks (mean (toy_appearance_model [9])) !! "source" = Some toy_mesh
  /\ build_reference_frame toy_framework toy_shape_instance
       (Some [(0, 1, 2)%nat]) = inr toy_frame
  /\ landmarks toy_frame !! "source" = Some toy_shape_instance
  /\ instance toy_framework toy_global_aam
       (Some (PyList [1])) (Some (PyList [1])) (-1) (toy_world ∅)
     = (inr (set_landmarks toy_appearance_instance (landmarks toy_frame)),
        logged (toy_world ∅)
          [CallShapeInstance [2];
           CallAppearanceInstance [3];
           CallBuildReferenceFrame toy_shape_instance (Some [(0, 1, 2)%nat]);
           CallTransform ThinPlateSplines toy_shape_instance toy_mesh;
           CallWarpToMask toy_appearance_instance [true]
             (ThinPlateSplines, toy_shape_instance, toy_mesh)]).
Proof.
  do 8 (split; [reflexivity |]).
  rewrite (global_instance_run toy_framework toy_global_aam ThinPlateSplines
           (-1) (toy_world ∅) (toy_shape_model [4]) (toy_appearance_model [9])
           [1] [1] toy_shape_instance toy_mesh toy_shape_instance
           toy_appearance_instance toy_frame toy_appearance_instance
           (ThinPlateSplines, toy_shape_instance, toy_mesh))
    by first [reflexivity | simpl; lia].
  reflexivity.
Defined.

(** X8 at an input: the same weights on a [PatchAAM]. *)
Lemma patch_instance_run_witness :
  cls (toy_aam (PatchAAM (16, 16)) [4] [9]) = PatchAAM (16, 16)
  /\ getitem (shape_models (toy_aam (PatchAAM (16, 16)) [4] [9])) (-1)
     = inr (toy_shape_model [4])
  /\ getitem (appearance_models (toy_aam (PatchAAM (16, 16)) [4] [9])) (-1)
     = inr (toy_appearance_model [9])
  /\ build_patch_reference_frame toy_framework toy_shape_instance (16, 16)
     = inr {| pixels := []; mask := [true; true];
              landmarks := {[ "source" := toy_shape_instance ]} |}
  /\ instance toy_framework (toy_aam (PatchAAM (16, 16)) [4] [9])
       (Some (PyList [1])) (Some (PyList [1])) (-1) (toy_world ∅)
     = (inr {| pixels := [3]; mask := [true; true];
               landmarks := {[ "source" := toy_shape_instance ]} |},
        logged (toy_world ∅)
          [CallShapeInstance [2];
           CallAppearanceInstance [3];
           CallBuildPatchReferenceFrame toy_shape_instance (16, 16);
           CallTransform ThinPlateSplines toy_shape_instance toy_mesh;
           CallWarpToMask toy_appearance_instance [true; true]
             (ThinPlateSplines, toy_shape_instance, toy_mesh)]).
Proof.
  do 4 (split; [reflexivity |]).
  rewrite (patch_instance_run toy_framework
           (toy_aam (PatchAAM (16, 16)) [4] [9]) (16, 16)
           (-1) (toy_world ∅) (toy_shape_model [4]) (toy_appearance_model [9])
           [1] [1] toy_shape_instance toy_mesh toy_shape_instance
           toy_appearance_instance
           {| pixels := []; mask := [true; true];
              landmarks := {[ "source" := toy_shape_instance ]} |}
           {| pixels := [3]; mask := [true; true];
              landmarks := {[ "source" := PointCloud [(7, 7)] ]} |}
           (ThinPlateSplines, toy_shape_instance, toy_mesh))
    by first [reflexivity | simpl; lia].
  reflexivity.
Defined.

(** X9 at two inputs, on PCA models that refuse more weights than they
    have eigenvalues: two shape weights for one eigenvalue, and two
    appearance weights for one eigenvalue. *)
Lemma pca_errors_propagate_witness :
  getitem (shape_models
             (toy_aam_of (GlobalAAM ThinPlateSplines)
                [strict_shape_model [4]] [strict_appearance_model [9]])) (-1)
  = inr (strict_shape_model [4])
  /\ getitem (appearance_models
                (toy_aam_of (GlobalAAM ThinPlateSplines)
                   [strict_shape_model [4]] [strict_appearance_model [9]]))
             (-1)
     = inr (strict_appearance_model [9])
  /\ imul (PyList [1; 1])
          (power_half (take 2 (eigenvalues (strict_shape_model [4]))))
          (toy_world ∅)
     = (inr [2; 2], toy_world ∅)
  /\ instance toy_framework
       (toy_aam_of (GlobalAAM ThinPlateSplines)
          [strict_shape_model [4]] [strict_appearance_model [9]])
       (Some (PyList [1; 1])) None (-1) (toy_world ∅)
     = (inl (ValueError "Number of weights cannot be greater"),
        logged (toy_world ∅) [CallShapeInstance [2; 2]])
  /\ instance toy_framework
       (toy_aam_of (GlobalAAM ThinPlateSplines)
          [strict_shape_model [4]] [strict_appearance_model [9]])
       (Some (PyList [1])) (Some (PyList [1; 1])) (-1) (toy_world ∅)
     = (inl (ValueError "Number of weights cannot be greater"),
        logged (logged (toy_world ∅) [CallShapeInstance [2]])
          [CallAppearanceInstance [3; 3]]).
Proof.
  assert (Hs2 : imul (PyList [1; 1])
                  (power_half
                     (take (length [1; 1])
                           (eigenvalues (strict_shape_model [4]))))
                  (toy_world ∅)
                = (inr [2; 2], toy_world ∅)) by reflexivity.
  assert (Hs1 : imul (PyList [1])
                  (power_half
                     (take (length [1])
                           (eigenvalues (strict_shape_model [4]))))
                  (toy_world ∅)
                = (inr [2], toy_world ∅)) by reflexivity.
  do 3 (split; [reflexivity |]). split.
  - apply (proj1 (pca_errors_propagate toy_framework
                    (toy_aam_of (GlobalAAM ThinPlateSplines)
                       [strict_shape_model [4]] [strict_appearance_model [9]])
                    (PyList [1; 1]) (-1) (toy_world ∅) (toy_world ∅)
                    (strict_shape_model [4]) (strict_appearance_model [9])
                    [1; 1] [2; 2] eq_refl eq_refl eq_refl Hs2)).
    reflexivity.
  - apply (proj2 (pca_errors_propagate toy_framework
                    (toy_aam_of (GlobalAAM ThinPlateSplines)
                       [strict_shape_model [4]] [strict_appearance_model [9]])
                    (PyList [1]) (-1) (toy_world ∅) (toy_world ∅)
                    (strict_shape_model [4]) (strict_appearance_model [9])
                    [1] [2] eq_refl eq_refl eq_refl Hs1)
             (PointCloud [(2, 2)]) (PyList [1; 1]) [1; 1] [3; 3]);
      reflexivity.
Defined.

(** X10 at an input: one shape weight for two eigenvalues. *)
Lemma list_weights_are_scaled_witness :
  getitem (shape_models (toy_aam (PatchAAM (16, 16)) [4; 9] [16])) 0
  = inr (toy_shape_model [4; 9])
  /\ getitem (appearance_models (toy_aam (PatchAAM (16, 16)) [4; 9] [16])) 0
     = inr (toy_appearance_model [16])
  /\ Nat.le (length [5]) (length (eigenvalues (toy_shape_model [4; 9])))
  /\ Nat.le (length [7]) (length (eigenvalues (toy_appearance_model [16])))
  /\ pca_instance (toy_shape_model [4; 9]) (scaled [5] [4; 9])
     = inr (PointCloud [(10, 10)])
  /\ scaled [5] [4; 9] = [10]
  /\ exists evs,
       log (instance toy_framework (toy_aam (PatchAAM (16, 16)) [4; 9] [16])
              (Some (PyList [5])) (Some (PyList [7])) 0 (toy_world ∅)).2
       = log (toy_world ∅) ++ CallShapeInstance [10]
           :: CallAppearanceInstance [28] :: evs.
Proof.
  do 2 (split; [reflexivity |]). do 2 (split; [simpl; lia |]).
  do 2 (split; [reflexivity |]).
  apply (proj1 (list_weights_are_scaled toy_framework
                  (toy_aam (PatchAAM (16, 16)) [4; 9] [16]) [5] [7] 0
                  (toy_world ∅)
                  (toy_shape_model [4; 9]) (toy_appearance_model [16])
                  (PointCloud [(10, 10)])
                  eq_refl eq_refl ltac:(simpl; lia) ltac:(simpl; lia)
                  eq_refl)).
Defined.

(** X12 at an input: two active shape components and one active
    appearance component. *)
Lemma random_instance_advances_cursor_witness :
  getitem (shape_models (toy_aam (PatchAAM (16, 16)) [4; 9] [16])) 0
  = inr (toy_shape_model [4; 9])
  /\ getitem (appearance_models (toy_aam (PatchAAM (16, 16)) [4; 9] [16])) 0
     = inr (toy_appearance_model [16])
  /\ multiply (next_draws (toy_world ∅) 0 2) (power_half (take 2 [4; 9]))
     = inr [2; 6]
  /\ pca_instance (toy_shape_model [4; 9]) [2; 6]
     = inr (PointCloud [(2, 2); (6, 6)])
  /\ cursor (random_instance toy_framework
               (toy_aam (PatchAAM (16, 16)) [4; 9] [16]) 0 (toy_world ∅)).2
     = 3%nat.
Proof.
  assert (Hvs : multiply
                  (next_draws (toy_world ∅) 0
                     (n_active_components (toy_shape_model [4; 9])))
                  (power_half
                     (take (n_active_components (toy_shape_model [4; 9]))
                           (eigenvalues (toy_shape_model [4; 9]))))
                = inr [2; 6]) by reflexivity.
  do 4 (split; [reflexivity |]).
  apply (proj1 (random_instance_advances_cursor toy_framework
                  (toy_aam (PatchAAM (16, 16)) [4; 9] [16]) 0 (toy_world ∅)
                  (toy_shape_model [4; 9]) (toy_appearance_model [16])
                  [2; 6] (PointCloud [(2, 2); (6, 6)])
                  eq_refl eq_refl Hvs eq_refl)).
Defined.



(** X16 at an input: one feature function, with the flag not set. *)
Lemma adapter_needs_iterable_features_witness :
  scale_features (toy_aam_of (GlobalAAM ThinPlateSplines) [] []) = false
  /\ iterate (features (toy_aam_of (GlobalAAM ThinPlateSplines) [] []))
     = inl (TypeError "object is not iterable")
  /\ h5_dict_to_serializable_dict
       (toy_aam_of (GlobalAAM ThinPlateSplines) [] [])
     = inl (TypeError "object is not iterable")
  /\ h5_dict_to_serializable_dict (toy_aam_of (PartsAAM (8, 8)) [] [])
     = inl (TypeError "object is not iterable").
Proof.
  do 2 (split; [reflexivity |]). split.
  - apply (adapter_needs_iterable_features
             (toy_aam_of (GlobalAAM ThinPlateSplines) [] [])
             (TypeError "object is not iterable") eq_refl eq_refl).
  - apply (adapter_needs_iterable_features
             (toy_aam_of (PartsAAM (8, 8)) [] [])
             (TypeError "object is not iterable") eq_refl eq_refl).
Defined.
